(** * torba.basenetwork: connection life cycle, push routing and RPC facade

    A shallow embedding of [src/torba/basenetwork.py].  The Python objects
    ([BaseNetwork], the [ClientSession]s it creates) become records in an
    explicit store; the [start()] coroutine becomes a resumable frame that is
    woken up by the events of the transport. *)

From stdpp Require Import gmap strings list pretty.

Open Scope string_scope.
Open Scope list_scope.

(** ** Python values and exceptions *)

(** Positional arguments travelling over the wire. *)
Inductive pyval :=
| PyNone
| PyBool (b : bool)
| PyInt (z : Z)
| PyStr (s : string).

Inductive exn :=
| KeyError (key : string)
| AttributeError (msg : string)
| ConnectionError (msg : string).

(** A call either returns a value or raises. *)
Inductive outcome (A : Type) :=
| Return (a : A)
| Raise (e : exn).
Arguments Return {A} a.
Arguments Raise {A} e.

(** ** Stream controllers *)

(** Modelled from the spec: [torba.stream.StreamController] is not part of the
    sources at hand.  Following the spec's SubscriptionChannel, a controller is
    a broadcast stream: several independent consumers may be attached, [add]
    delivers the event to every consumer attached at that time, in arrival
    order, and a consumer attached later does not see earlier events.
    [published] keeps every event ever added, whether or not anybody
    listened. *)
Record StreamController (A : Type) := mkStream {
  published : list A;
  inboxes : list (list A)
}.
Arguments mkStream {A}.
Arguments published {A}.
Arguments inboxes {A}.

Definition sc_new {A} : StreamController A := mkStream [] [].

Definition sc_add {A} (event : A) (c : StreamController A) : StreamController A :=
  mkStream (published c ++ [event]) ((λ q, q ++ [event]) <$> inboxes c).

Definition sc_listen {A} (c : StreamController A) : StreamController A :=
  mkStream (published c) (inboxes c ++ [[]]).

(** ** Sessions *)

(** A server is the [(host, port)] pair of [config['default_servers']]. *)
Definition Server : Type := string * Z.

(** The transport of an aiorpcx session as seen by this module: [Fresh] before
    [create_connection] has succeeded, [Open] once [connection_made] ran,
    [Closing] after a local [close()], [Lost] after [connection_lost]. *)
Inductive Phase := Fresh | Open | Closing | Lost.

Global Instance Phase_eq_dec : EqDecision Phase.
Proof. solve_decision. Defined.

Record ClientSession := mkSession {
  server_of : Server;
  phase : Phase;
  (** the calls made to [send_request], oldest first *)
  requests : list (string * list pyval);
  _on_disconnect_controller : StreamController bool
}.

(** [ClientSession.__init__] *)
Definition new_session (server : Server) : ClientSession :=
  mkSession server Fresh [] sc_new.

(** [is_closing()] of the session library: true unless a transport is attached
    and not closing. *)
Definition is_closing (s : ClientSession) : bool :=
  match phase s with
  | Open => false
  | _ => true
  end.

Definition set_phase (p : Phase) (s : ClientSession) : ClientSession :=
  mkSession (server_of s) p (requests s) (_on_disconnect_controller s).

Definition record_request (method : string) (args : list pyval) (s : ClientSession)
  : ClientSession :=
  mkSession (server_of s) (phase s) (requests s ++ [(method, args)])
            (_on_disconnect_controller s).

(** [ClientSession.connection_lost]: the transport is gone and the disconnect
    stream receives [True]. *)
Definition session_connection_lost (s : ClientSession) : ClientSession :=
  mkSession (server_of s) Lost (requests s)
            (sc_add true (_on_disconnect_controller s)).

(** The session's disconnect notification has fired. *)
Definition disconnect_fired (s : ClientSession) : bool :=
  bool_decide (published (_on_disconnect_controller s) ≠ []).

(** ** The network object *)

(** The two controllers a push can be routed to. *)
Inductive Controller := OnHeader | OnStatus.

Inductive LogRecord :=
| LogInfo (msg : string)
| LogException (msg : string) (arg : string).

(** What [send_request] hands back: the pending call on one session. *)
Inductive Awaitable :=
| PendingRequest (sid : nat) (method : string) (args : list pyval).

(** The frame of the [start()] coroutine: where it is suspended, with its
    locals ([it] counts the servers drawn from [cycle] so far, [server] is the
    loop variable, [sid] the session whose future is awaited). *)
Inductive Frame :=
| NotStarted
| AwaitConnect (it : nat) (server : Server) (sid : nat)
| AwaitVersion (it : nat) (server : Server) (sid : nat)
| AwaitDisconnect (it : nat) (server : Server) (sid : nat)
| Finished.

Record Network := mkNetwork {
  default_servers : list Server;
  client : option nat;
  running : bool;
  _on_connected_controller : StreamController bool;
  _on_header_controller : StreamController (list pyval);
  _on_status_controller : StreamController (list pyval);
  subscription_controllers : gmap string Controller;
  (** every session object created so far; a session is named by its index *)
  heap : list ClientSession;
  log : list LogRecord;
  task : Frame
}.

Definition set_client (c : option nat) (n : Network) : Network :=
  mkNetwork (default_servers n) c (running n) (_on_connected_controller n)
            (_on_header_controller n) (_on_status_controller n)
            (subscription_controllers n) (heap n) (log n) (task n).

Definition set_running (b : bool) (n : Network) : Network :=
  mkNetwork (default_servers n) (client n) b (_on_connected_controller n)
            (_on_header_controller n) (_on_status_controller n)
            (subscription_controllers n) (heap n) (log n) (task n).

Definition set_on_connected (c : StreamController bool) (n : Network) : Network :=
  mkNetwork (default_servers n) (client n) (running n) c
            (_on_header_controller n) (_on_status_controller n)
            (subscription_controllers n) (heap n) (log n) (task n).

Definition set_on_header (c : StreamController (list pyval)) (n : Network) : Network :=
  mkNetwork (default_servers n) (client n) (running n) (_on_connected_controller n)
            c (_on_status_controller n)
            (subscription_controllers n) (heap n) (log n) (task n).

Definition set_on_status (c : StreamController (list pyval)) (n : Network) : Network :=
  mkNetwork (default_servers n) (client n) (running n) (_on_connected_controller n)
            (_on_header_controller n) c
            (subscription_controllers n) (heap n) (log n) (task n).

Definition set_heap (h : list ClientSession) (n : Network) : Network :=
  mkNetwork (default_servers n) (client n) (running n) (_on_connected_controller n)
            (_on_header_controller n) (_on_status_controller n)
            (subscription_controllers n) h (log n) (task n).

Definition add_log (r : LogRecord) (n : Network) : Network :=
  mkNetwork (default_servers n) (client n) (running n) (_on_connected_controller n)
            (_on_header_controller n) (_on_status_controller n)
            (subscription_controllers n) (heap n) (log n ++ [r]) (task n).

Definition set_task (f : Frame) (n : Network) : Network :=
  mkNetwork (default_servers n) (client n) (running n) (_on_connected_controller n)
            (_on_header_controller n) (_on_status_controller n)
            (subscription_controllers n) (heap n) (log n) f.

Definition update_session (sid : nat) (f : ClientSession → ClientSession)
  (n : Network) : Network :=
  set_heap (alter f sid (heap n)) n.

(** [BaseNetwork.__init__]: the routing table is written here and nowhere
    else. *)
Definition init (servers : list Server) : Network :=
  mkNetwork servers None false sc_new sc_new sc_new
    (<["blockchain.headers.subscribe" := OnHeader]>
       (<["blockchain.address.subscribe" := OnStatus]> ∅))
    [] [] NotStarted.

(** ** Push routing: [ClientSession.handle_request] *)

Definition controller_add (c : Controller) (args : list pyval) (n : Network) : Network :=
  match c with
  | OnHeader => set_on_header (sc_add args (_on_header_controller n)) n
  | OnStatus => set_on_status (sc_add args (_on_status_controller n)) n
  end.

(** Indexing a Python dict with a missing key raises [KeyError]. *)
Definition handle_request (n : Network) (method : string) (args : list pyval)
  : Network * outcome unit :=
  match subscription_controllers n !! method with
  | Some controller => (controller_add controller args n, Return ())
  | None => (n, Raise (KeyError method))
  end.

(** Pushes handed to [handle_request] one after the other, for as long as the
    calls return: the first call that raises ends the row with its exception.
    What becomes of that exception and of the messages after it is decided by
    the session library, not by this module. *)
Fixpoint handle_requests (n : Network) (msgs : list (string * list pyval))
  : Network * outcome unit :=
  match msgs with
  | [] => (n, Return ())
  | (method, args) :: rest =>
      match handle_request n method args with
      | (n', Return _) => handle_requests n' rest
      | (n', Raise e) => (n', Raise e)
      end
  end.

(** ** The facade *)

(** [BaseNetwork.is_connected] *)
Definition is_connected (n : Network) : bool :=
  match client n with
  | None => false
  | Some sid =>
      match heap n !! sid with
      | Some s => negb (is_closing s)
      | None => false
      end
  end.

(** [self.client.send_request(method, args)] on session [sid]. *)
Definition send_request (n : Network) (sid : nat) (method : string)
  (args : list pyval) : Network * outcome Awaitable :=
  (update_session sid (record_request method args) n,
   Return (PendingRequest sid method args)).

Definition rpc (n : Network) (list_or_method : string) (args : list pyval)
  : Network * outcome Awaitable :=
  if is_connected n then
    match client n with
    | Some sid => send_request n sid list_or_method args
    | None => (n, Raise (AttributeError "send_request"))
    end
  else
    (n, Raise (ConnectionError
                 "Attempting to send rpc request when connection is not available.")).

Definition broadcast (n : Network) (raw_transaction : pyval) :=
  rpc n "blockchain.transaction.broadcast" [raw_transaction].

Definition get_history (n : Network) (address : pyval) :=
  rpc n "blockchain.address.get_history" [address].

Definition get_transaction (n : Network) (tx_hash : pyval) :=
  rpc n "blockchain.transaction.get" [tx_hash].

Definition get_merkle (n : Network) (tx_hash height : pyval) :=
  rpc n "blockchain.transaction.get_merkle" [tx_hash; height].

(** [count] is a keyword argument with default 10000: [None] stands for a call
    that leaves it out. *)
Definition get_headers (n : Network) (height : pyval) (count : option pyval) :=
  rpc n "blockchain.block.headers" [height; default (PyInt 10000) count].

Definition subscribe_headers (n : Network) :=
  rpc n "blockchain.headers.subscribe" [PyBool true].

Definition subscribe_address (n : Network) (address : pyval) :=
  rpc n "blockchain.address.subscribe" [address].

(** The seven facade operations with the arguments their caller supplies. *)
Inductive Call :=
| CallBroadcast (raw_transaction : pyval)
| CallGetHistory (address : pyval)
| CallGetTransaction (tx_hash : pyval)
| CallGetMerkle (tx_hash height : pyval)
| CallGetHeaders (height : pyval) (count : option pyval)
| CallSubscribeHeaders
| CallSubscribeAddress (address : pyval).

Definition facade (n : Network) (c : Call) : Network * outcome Awaitable :=
  match c with
  | CallBroadcast raw => broadcast n raw
  | CallGetHistory a => get_history n a
  | CallGetTransaction h => get_transaction n h
  | CallGetMerkle h ht => get_merkle n h ht
  | CallGetHeaders ht c => get_headers n ht c
  | CallSubscribeHeaders => subscribe_headers n
  | CallSubscribeAddress a => subscribe_address n a
  end.

(** The parameters of each operation as bound at the call, in order (a
    default stands in for an argument the caller left out). *)
Definition positional_args (c : Call) : list pyval :=
  match c with
  | CallBroadcast raw => [raw]
  | CallGetHistory a => [a]
  | CallGetTransaction h => [h]
  | CallGetMerkle h ht => [h; ht]
  | CallGetHeaders ht c => [ht; default (PyInt 10000) c]
  | CallSubscribeHeaders => []
  | CallSubscribeAddress a => [a]
  end.

(** The wire method of each operation, as the table of external interfaces
    lists it. *)
Definition wire_method (c : Call) : string :=
  match c with
  | CallBroadcast _ => "blockchain.transaction.broadcast"
  | CallGetHistory _ => "blockchain.address.get_history"
  | CallGetTransaction _ => "blockchain.transaction.get"
  | CallGetMerkle _ _ => "blockchain.transaction.get_merkle"
  | CallGetHeaders _ _ => "blockchain.block.headers"
  | CallSubscribeHeaders => "blockchain.headers.subscribe"
  | CallSubscribeAddress _ => "blockchain.address.subscribe"
  end.

(** The arguments that go on the wire: the operation's parameters, and the
    constant [True] for [subscribe_headers], which has none. *)
Definition wire_args (c : Call) : list pyval :=
  match c with
  | CallSubscribeHeaders => [PyBool true]
  | _ => positional_args c
  end.

(** ** The failover loop *)

Section Failover.

(** [torba.__version__], a constant of the package that is not part of the
    sources at hand. *)
Variable __version__ : string.

(** [required] is a keyword argument with default ['1.2']. *)
Definition ensure_server_version (n : Network) (required : option string)
  : Network * outcome Awaitable :=
  rpc n "server.version" [PyStr __version__; PyStr (default "1.2" required)].

(** [connection_string]: the format ['tcp:{}:{}'] filled with host and port. *)
Definition connection_string (server : Server) : string :=
  "tcp:" +:+ server.1 +:+ ":" +:+ pretty server.2.

(** [itertools.cycle]: the element drawn after [it] earlier draws; an empty
    pool is exhausted at once. *)
Definition cycle_next (pool : list Server) (it : nat) : option Server :=
  match pool with
  | [] => None
  | _ => pool !! (it `mod` length pool)
  end.

(** The head of the [for] statement and the first two lines of its body: draw
    a server, build the session, store it in [self.client] and suspend on
    [create_connection].  When [cycle] has nothing to give the loop is over
    and [start()] returns. *)
Definition next_server (n : Network) (it : nat) : Network :=
  match cycle_next (default_servers n) it with
  | None => set_task Finished n
  | Some server =>
      let sid := length (heap n) in
      set_task (AwaitConnect (S it) server sid)
        (set_client (Some sid) (set_heap (heap n ++ [new_session server]) n))
  end.

(** [if not self.running: return], then the next turn of the loop. *)
Definition end_of_iteration (n : Network) (it : nat) : Network :=
  if running n then next_server n it else set_task Finished n.

(** The [except Exception] clause. *)
Definition except_handler (n : Network) (it : nat) (server : Server) : Network :=
  end_of_iteration
    (add_log (LogException "Connecting to %s raised an exception:"
                           (connection_string server)) n) it.

(** [start()] up to its first suspension. *)
Definition start (n : Network) : Network :=
  next_server (set_running true n) 0.

(** [create_connection] returned on session [sid]: the transport is attached,
    and the coroutine goes on to [ensure_server_version], whose request it then
    awaits.  The attach and the resumption of [start()] are one step here:
    nothing is let in between the two. *)
Definition resume_connect_ok (n : Network) (it : nat) (server : Server) (sid : nat)
  : Network :=
  let n1 := update_session sid (set_phase Open) n in
  match ensure_server_version n1 None with
  | (n2, Return (PendingRequest sid' _ _)) => set_task (AwaitVersion it server sid') n2
  | (n2, Raise _) => except_handler n2 it server
  end.

(** The [server.version] request was answered: log, fire [on_connected] and
    suspend on the disconnect notification of [self.client]. *)
Definition resume_version_ok (n : Network) (it : nat) (server : Server) : Network :=
  let n1 := add_log (LogInfo "Successfully connected to SPV wallet server: %s") n in
  let n2 := set_on_connected (sc_add true (_on_connected_controller n1)) n1 in
  match client n2 with
  | Some sid => set_task (AwaitDisconnect it server sid) n2
  | None => except_handler n2 it server
  end.

(** The transport of session [sid] is lost: [connection_lost] runs, the
    disconnect stream fires, and whoever awaits that session is woken up: the
    loop waiting for the disconnect goes to the end of its iteration, and a
    [server.version] request still pending on it fails. *)
Definition connection_lost (n : Network) (sid : nat) : option Network :=
  match heap n !! sid with
  | Some s =>
      if bool_decide (phase s = Open ∨ phase s = Closing) then
        let n1 := update_session sid session_connection_lost n in
        Some
          match task n1 with
          | AwaitDisconnect it server sid' =>
              if decide (sid' = sid) then end_of_iteration n1 it else n1
          | AwaitVersion it server sid' =>
              if decide (sid' = sid) then except_handler n1 it server else n1
          | _ => n1
          end
      else None
  | None => None
  end.

(** [stop()] up to its suspension: the new state, and the session whose
    [close()] and disconnect notification it awaits, if any.  It resumes, and
    returns, when [connection_lost] runs on that session. *)
Definition stop (n : Network) : Network * option nat :=
  let n1 := set_running false n in
  if is_connected n1 then
    match client n1 with
    | Some sid => (update_session sid (set_phase Closing) n1, Some sid)
    | None => (n1, None)
    end
  else (n1, None).

(** A consumer attaches to one of the public streams. *)
Inductive Stream := StreamConnected | StreamHeader | StreamStatus.

Definition listen (n : Network) (s : Stream) : Network :=
  match s with
  | StreamConnected => set_on_connected (sc_listen (_on_connected_controller n)) n
  | StreamHeader => set_on_header (sc_listen (_on_header_controller n)) n
  | StreamStatus => set_on_status (sc_listen (_on_status_controller n)) n
  end.

(** What can happen to a network object: calls of its users and events of the
    transport. *)
Inductive Event :=
| Start
| Stop
| ConnectOk
| ConnectFailed
| VersionOk
| VersionFailed
| ConnectionLost (sid : nat)
| Push (method : string) (args : list pyval)
| Listen (s : Stream)
| Request (c : Call).

(** One event; [None] when the event cannot happen in this state (a reply
    nobody waits for, a second [start()] while the loop runs). *)
Definition step (n : Network) (e : Event) : option Network :=
  match e with
  | Start =>
      match task n with
      | NotStarted | Finished => Some (start n)
      | _ => None
      end
  | Stop => Some (stop n).1
  | ConnectOk =>
      match task n with
      | AwaitConnect it server sid => Some (resume_connect_ok n it server sid)
      | _ => None
      end
  | ConnectFailed =>
      match task n with
      | AwaitConnect it server sid => Some (except_handler n it server)
      | _ => None
      end
  | VersionOk =>
      match task n with
      | AwaitVersion it server sid => Some (resume_version_ok n it server)
      | _ => None
      end
  | VersionFailed =>
      match task n with
      | AwaitVersion it server sid => Some (except_handler n it server)
      | _ => None
      end
  | ConnectionLost sid => connection_lost n sid
  | Push method args => Some (handle_request n method args).1
  | Listen s => Some (listen n s)
  | Request c => Some (facade n c).1
  end.

Fixpoint run (n : Network) (evs : list Event) : option Network :=
  match evs with
  | [] => Some n
  | e :: rest =>
      match step n e with
      | Some n' => run n' rest
      | None => None
      end
  end.

(** The states the network object of a given pool can be in. *)
Definition reachable (pool : list Server) (n : Network) : Prop :=
  ∃ evs, run (init pool) evs = Some n.

(** How one connection attempt ends, and the events that make it end so. *)
Inductive Attempt := ConnectError | VersionError | Disconnected.

Definition attempt_events (a : Attempt) (sid : nat) : list Event :=
  match a with
  | ConnectError => [ConnectFailed]
  | VersionError => [ConnectOk; VersionFailed]
  | Disconnected => [ConnectOk; VersionOk; ConnectionLost sid]
  end.

(** The events of a row of attempts, the first of them on session [sid]. *)
Fixpoint attempts_events (l : list Attempt) (sid : nat) : list Event :=
  match l with
  | [] => []
  | a :: rest => attempt_events a sid ++ attempts_events rest (S sid)
  end.

(** The servers of the sessions created so far, oldest first. *)
Definition attempted (n : Network) : list Server := server_of <$> heap n.

(** The loop has been started and has returned. *)
Definition loop_terminated (n : Network) : Prop := task n = Finished.

End Failover.

(** The session the facade talks to: the one [self.client] designates, while
    its transport is attached and not closing. *)
Definition active (n : Network) (sid : nat) : Prop :=
  client n = Some sid ∧ ∃ s, heap n !! sid = Some s ∧ is_closing s = false.

(** Session [sid] has its transport up, whether or not [self.client] still
    designates it. *)
Definition live (n : Network) (sid : nat) : Prop :=
  ∃ s, heap n !! sid = Some s ∧ is_closing s = false.

(** The first [k] servers [cycle] gives. *)
Definition cycle_take (pool : list Server) (k : nat) : list Server :=
  omap (cycle_next pool) (seq 0 k).

(** ** Sample data *)

Definition version_0_5_7 : string := "0.5.7".

Definition pool_ab : list Server :=
  [("a.example", 50001%Z); ("b.example", 50002%Z)].

(** Nothing started yet. *)
Definition net_idle : Network := init pool_ab.

(** Connected to the first server, the version check answered. *)
Definition net_connected : Network :=
  default net_idle (run version_0_5_7 net_idle [Start; ConnectOk; VersionOk]).

(** [create_connection] on the first server is in flight. *)
Definition net_connecting : Network :=
  default net_idle (run version_0_5_7 net_idle [Start]).

(** Connected, the [server.version] request not yet answered. *)
Definition net_versioning : Network :=
  default net_idle (run version_0_5_7 net_idle [Start; ConnectOk]).

(** Connected to the first server, lost, connected to the second. *)
Definition net_reconnected : Network :=
  default net_idle
    (run version_0_5_7 net_idle
       [Start; ConnectOk; VersionOk; ConnectionLost 0; ConnectOk; VersionOk]).

(** Connected to the first server, then stopped. *)
Definition net_stopped : Network :=
  default net_idle (run version_0_5_7 net_connected [Stop; ConnectionLost 0]).

(** The session of [net_connected]. *)
Definition session_connected : ClientSession :=
  default (new_session ("a.example", 50001%Z)) (heap net_connected !! 0).

(** The third attempt: the first session abandoned after a failed version
    check, the second connected and lost. *)
Definition net_third_attempt : Network :=
  default net_idle
    (run version_0_5_7 net_idle
       [Start; ConnectOk; VersionFailed; ConnectOk; VersionOk; ConnectionLost 1]).

(** The error every facade call raises while there is no connection. *)
Definition not_available : exn :=
  ConnectionError "Attempting to send rpc request when connection is not available.".

(** ** Invariants of the network object *)

(** The session created last, if any. *)
Definition newest (h : list ClientSession) : option nat :=
  match length h with
  | 0 => None
  | S k => Some k
  end.

(** The store: [self.client] is the session created last; a session's
    disconnect notification has fired exactly when its transport is lost. *)
Definition store_ok (pool : list Server) (n : Network) : Prop :=
  default_servers n = pool ∧
  client n = newest (heap n) ∧
  ∀ sid s, heap n !! sid = Some s → disconnect_fired s = true ↔ phase s = Lost.

(** The suspended coroutine agrees with the store: it awaits the session in
    [self.client]; [create_connection] is awaited on a session just built for
    the server drawn; the version reply and the disconnect are awaited on a
    session that got its transport. *)
Definition frame_ok (n : Network) : Prop :=
  match task n with
  | NotStarted => heap n = []
  | AwaitConnect it server sid =>
      client n = Some sid ∧ heap n !! sid = Some (new_session server) ∧
      0 < it ∧ cycle_next (default_servers n) (it - 1) = Some server
  | AwaitVersion it server sid | AwaitDisconnect it server sid =>
      client n = Some sid ∧
      (∃ s, heap n !! sid = Some s ∧ server_of s = server ∧
            (phase s = Open ∨ phase s = Closing)) ∧
      0 < it ∧ cycle_next (default_servers n) (it - 1) = Some server
  | Finished => True
  end.

Definition wf (pool : list Server) (n : Network) : Prop :=
  store_ok pool n ∧ frame_ok n.

(** Session objects are never removed, keep their server, and a disconnect
    notification that has fired stays fired. *)
Definition heap_extends (n n' : Network) : Prop :=
  ∀ sid s, heap n !! sid = Some s →
    ∃ s', heap n' !! sid = Some s' ∧ server_of s' = server_of s ∧
          (disconnect_fired s = true → disconnect_fired s' = true).

(** A [stop()] that closed session [sid] is waiting for its disconnect
    notification: the stop flag is set and [self.client] is that session, its
    transport closing. *)
Definition stopping (sid : nat) (n : Network) : Prop :=
  running n = false ∧ client n = Some sid ∧
  ∃ s, heap n !! sid = Some s ∧ phase s = Closing.

(** The loop is suspended at the top of an iteration: [it] servers were drawn
    before the current one, and [create_connection] is awaited on session
    [sid], just built for it. *)
Definition at_head (pool : list Server) (n : Network) (it sid : nat) : Prop :=
  default_servers n = pool ∧ running n = true ∧ client n = Some sid ∧
  length (heap n) = S sid ∧
  ∃ server, cycle_next pool it = Some server ∧
    task n = AwaitConnect (S it) server sid ∧
    heap n !! sid = Some (new_session server).

(** The stop flag and the end of the loop, [seen] telling whether [stop()] was
    called so far: a loop that has returned has its flag cleared, and the flag
    of a loop ever started is cleared by [stop()] only. *)
Definition stop_flag_inv (pool : list Server) (seen : Prop) (n : Network) : Prop :=
  default_servers n = pool ∧
  (task n = Finished → running n = false) ∧
  (running n = false → task n = NotStarted ∨ seen).

(** ** The life of a session *)

(** The [server.version] request the loop sends first on every session. *)
Definition handshake (version : string) : string * list pyval :=
  ("server.version", [PyStr version; PyStr "1.2"]).

(** What the code of this module and the transport do to one session object:
    the loop attaches it and sends the handshake, the facade records a request
    on it, [stop()] closes it, the transport is lost. *)
Inductive session_step (version : string) : ClientSession → ClientSession → Prop :=
| session_connect (s : ClientSession) :
    phase s = Fresh →
    session_step version s
      (record_request "server.version" [PyStr version; PyStr "1.2"]
         (set_phase Open s))
| session_request (s : ClientSession) (method : string) (args : list pyval) :
    phase s = Open →
    session_step version s (record_request method args s)
| session_close (s : ClientSession) :
    phase s = Open →
    session_step version s (set_phase Closing s)
| session_lost (s : ClientSession) :
    phase s = Open ∨ phase s = Closing →
    session_step version s (session_connection_lost s).

(** How the store of sessions changes: a session already there makes any
    number of steps of its life, and a session added is one just built for a
    server of the pool. *)
Definition sessions_evolve (version : string) (pool : list Server)
  (h h' : list ClientSession) : Prop :=
  (∀ sid s, h !! sid = Some s →
     ∃ s', h' !! sid = Some s' ∧ rtc (session_step version) s s') ∧
  (∀ sid s', (length h ≤ sid)%nat → h' !! sid = Some s' →
     ∃ server s0, server ∈ pool ∧
       rtc (session_step version) (new_session server) s0 ∧ s' = s0).

(** The phases in the order a session goes through them. *)
Definition phase_rank (p : Phase) : nat :=
  match p with
  | Fresh => 0
  | Open => 1
  | Closing => 2
  | Lost => 3
  end.

(** The answered version checks among the events. *)
Definition is_version_ok (e : Event) : bool :=
  match e with
  | VersionOk => true
  | _ => false
  end.

Definition version_replies (evs : list Event) : nat :=
  length (filter (λ e, is_version_ok e = true) evs).

(** An attempt that ends before the connection is established. *)
Definition failed (a : Attempt) : Prop :=
  a = ConnectError ∨ a = VersionError.

(** The payloads of the pushes for one topic, in arrival order. *)
Definition topic_args (topic : string) (msgs : list (string * list pyval))
  : list (list pyval) :=
  snd <$> filter (λ m, m.1 = topic) msgs.

(** A push for one of the two topics of the routing table. *)
Definition routed (m : string * list pyval) : Prop :=
  m.1 = "blockchain.headers.subscribe" ∨ m.1 = "blockchain.address.subscribe".

(** The request a facade call puts on the wire. *)
Definition wire_request (c : Call) : string * list pyval :=
  (wire_method c, wire_args c).

(** Several requests recorded on a session, in order. *)
Definition add_requests (reqs : list (string * list pyval)) (s : ClientSession)
  : ClientSession :=
  mkSession (server_of s) (phase s) (requests s ++ reqs)
            (_on_disconnect_controller s).

(** In a running loop [self.client] never designates a session that
    [stop()] is closing. *)
Definition no_closing_client (n : Network) : Prop :=
  running n = true →
  ∀ sid s, client n = Some sid → heap n !! sid = Some s → phase s ≠ Closing.

(** ** After [stop()] *)



(** * Properties *)

(** ** The facade *)

Lemma is_connected_active (n : Network) :
  is_connected n = true ↔ ∃ sid, active n sid.
Proof.
  unfold is_connected, active. split.
  - destruct (client n) as [sid|]; [|done].
    destruct (heap n !! sid) as [s|] eqn:Hs; [|done].
    intros Hc. exists sid. split; [done|]. exists s. split; [done|].
    by destruct (is_closing s).
  - intros (sid & -> & s & -> & ->). done.
Qed.

Lemma rpc_connected (n : Network) (method : string) (args : list pyval) :
  is_connected n = true →
  ∃ sid, active n sid ∧ rpc n method args = send_request n sid method args.
Proof.
  intros Hc. destruct (proj1 (is_connected_active n) Hc) as [sid Ha].
  exists sid. split; [done|]. unfold rpc. rewrite Hc.
  destruct Ha as [-> _]. done.
Qed.

Lemma rpc_disconnected (n : Network) (method : string) (args : list pyval) :
  is_connected n = false → rpc n method args = (n, Raise not_available).
Proof. intros Hc. unfold rpc. by rewrite Hc. Qed.

Lemma facade_rpc (n : Network) (c : Call) :
  facade n c = rpc n (wire_method c) (wire_args c).
Proof. by destruct c. Qed.

(** C2: a facade operation called while [is_connected] is false raises the
    connection-not-available error and leaves the network object, hence every
    session's list of requests, as it was; called while [is_connected] is true
    it is a [send_request] on the active session. *)
Theorem C2_facade_fail_fast (n : Network) (c : Call) :
  (is_connected n = false →
     facade n c = (n, Raise not_available) ∧
     requests <$> heap (facade n c).1 = requests <$> heap n) ∧
  (is_connected n = true →
     ∃ sid method args,
       active n sid ∧ facade n c = send_request n sid method args).
Proof.
  rewrite facade_rpc. split; intros Hc.
  - rewrite (rpc_disconnected _ _ _ Hc). done.
  - destruct (rpc_connected n (wire_method c) (wire_args c) Hc) as (sid & Ha & ->).
    by exists sid, (wire_method c), (wire_args c).
Qed.

(** C8 (as amended): when connected, every facade operation is a
    [send_request] on the active session with the wire method of the table and
    the operation's positional arguments, except that [subscribe_headers],
    which takes none, sends the single constant argument [True]. *)
Theorem C8_facade_wire_calls (n : Network) (c : Call) :
  is_connected n = true →
  ∃ sid, active n sid ∧
    facade n c = send_request n sid (wire_method c) (wire_args c) ∧
    (c ≠ CallSubscribeHeaders → wire_args c = positional_args c) ∧
    (c = CallSubscribeHeaders → wire_args c = [PyBool true]).
Proof.
  intros Hc. rewrite facade_rpc.
  destruct (rpc_connected n (wire_method c) (wire_args c) Hc) as (sid & Ha & ->).
  exists sid. split; [done|]. split; [done|]. split; [|by intros ->].
  by destruct c.
Qed.

(** C10: [get_headers] called without [count] sends
    ['blockchain.block.headers'] with the arguments [(height, 10000)]. *)
Theorem C10_get_headers_default_count (n : Network) (height : pyval) :
  is_connected n = true →
  ∃ sid, active n sid ∧
    get_headers n height None =
      send_request n sid "blockchain.block.headers" [height; PyInt 10000].
Proof. intros Hc. by apply rpc_connected. Qed.

(** ** Push routing *)

Lemma handle_request_table (n : Network) (method : string) (args : list pyval) :
  subscription_controllers (handle_request n method args).1 =
  subscription_controllers n.
Proof.
  unfold handle_request. destruct (subscription_controllers n !! method) as [[]|]; done.
Qed.

Lemma handle_request_unregistered (n : Network) (method : string) (args : list pyval) :
  subscription_controllers n !! method = None →
  handle_request n method args = (n, Raise (KeyError method)).
Proof. intros Hm. unfold handle_request. by rewrite Hm. Qed.


(** ** The invariants hold in every reachable state *)

Lemma newest_app (h : list ClientSession) (x : ClientSession) :
  newest (h ++ [x]) = Some (length h).
Proof. unfold newest. rewrite length_app. simpl. by rewrite Nat.add_1_r. Qed.

Lemma newest_alter (f : ClientSession → ClientSession) (i : nat)
  (h : list ClientSession) :
  newest (alter f i h) = newest h.
Proof. unfold newest. by rewrite length_alter. Qed.

Lemma newest_Some (h : list ClientSession) (sid : nat) :
  newest h = Some sid → length h = S sid.
Proof. unfold newest. destruct (length h); naive_solver. Qed.

Lemma cycle_next_is_Some (pool : list Server) (i j : nat) :
  is_Some (cycle_next pool i) → is_Some (cycle_next pool j).
Proof.
  destruct pool as [|x pool]; [by intros [? ?]|]. intros _.
  unfold cycle_next. apply lookup_lt_is_Some.
  apply Nat.mod_upper_bound. done.
Qed.

Lemma store_ok_next_server (pool : list Server) (n : Network) (it : nat) :
  store_ok pool n → wf pool (next_server n it).
Proof.
  intros (Hp & Hc & Hf). unfold next_server.
  destruct (cycle_next (default_servers n) it) as [server|] eqn:Hn.
  - split; [split; [done|split]|]; simpl.
    + by rewrite newest_app.
    + intros sid s Hs. apply lookup_app_Some in Hs as [Hs|[_ Hs]]; [by eapply Hf|].
      apply list_lookup_singleton_Some in Hs as [_ <-]. done.
    + unfold frame_ok. simpl. rewrite Nat.sub_0_r.
      split; [done|]. split; [|split; [lia|done]].
      by rewrite lookup_app_r, Nat.sub_diag.
  - split; [done|]. by unfold frame_ok.
Qed.

Lemma store_ok_end_of_iteration (pool : list Server) (n : Network) (it : nat) :
  store_ok pool n → wf pool (end_of_iteration n it).
Proof.
  intros Hs. unfold end_of_iteration. destruct (running n).
  - by apply store_ok_next_server.
  - split; [done|]. by unfold frame_ok.
Qed.

Lemma store_ok_except_handler (pool : list Server) (n : Network) (it : nat)
  (server : Server) :
  store_ok pool n → wf pool (except_handler n it server).
Proof. intros Hs. unfold except_handler. by apply store_ok_end_of_iteration. Qed.

Lemma store_ok_update_session (pool : list Server) (n : Network) (sid : nat)
  (f : ClientSession → ClientSession) :
  store_ok pool n →
  (∀ s, heap n !! sid = Some s → disconnect_fired (f s) = true ↔ phase (f s) = Lost) →
  store_ok pool (update_session sid f n).
Proof.
  intros (Hp & Hc & Hf) Hnew. split; [exact Hp|]. split; simpl.
  - by rewrite newest_alter.
  - intros sid' s' Hs'. destruct (decide (sid = sid')) as [<-|Hne].
    + rewrite list_lookup_alter_eq in Hs'.
      destruct (heap n !! sid) as [s|] eqn:Hs; simplify_eq/=. by apply Hnew.
    + rewrite list_lookup_alter_ne in Hs' by done. by eapply Hf.
Qed.

Section Properties.

Context (__version__ : string).

(** Unfolds the coroutine down to the record updates. *)
Ltac unfold_loop :=
  unfold resume_connect_ok, resume_version_ok, connection_lost, stop, start,
    except_handler, end_of_iteration, next_server, listen, facade,
    ensure_server_version, broadcast, get_history, get_transaction, get_merkle,
    get_headers, subscribe_headers, subscribe_address, rpc, send_request,
    handle_request, controller_add, update_session in *.

Lemma step_table (n n' : Network) (e : Event) :
  step __version__ n e = Some n' →
  subscription_controllers n' = subscription_controllers n.
Proof.
  destruct e; simpl; unfold_loop; intros H;
    repeat case_match; simplify_eq; done.
Qed.

Lemma run_table (evs : list Event) (n n' : Network) :
  run __version__ n evs = Some n' →
  subscription_controllers n' = subscription_controllers n.
Proof.
  revert n. induction evs as [|e evs IH]; intros n; simpl.
  - by intros [= ->].
  - destruct (step __version__ n e) as [n1|] eqn:He; [|done].
    intros Hr. rewrite (IH _ Hr). by eapply step_table.
Qed.

Lemma is_connected_Some (n : Network) :
  is_connected n = true →
  ∃ sid s, client n = Some sid ∧ heap n !! sid = Some s ∧ phase s = Open.
Proof.
  unfold is_connected. destruct (client n) as [sid|]; [|done].
  destruct (heap n !! sid) as [s|] eqn:Hs; [|done].
  unfold is_closing. destruct (phase s) eqn:Hp; try done.
  intros _. by exists sid, s.
Qed.

Lemma frame_ok_streams (n n' : Network) :
  task n' = task n → heap n' = heap n → client n' = client n →
  default_servers n' = default_servers n →
  frame_ok n → frame_ok n'.
Proof. unfold frame_ok. by intros -> -> -> ->. Qed.

Lemma store_ok_streams (pool : list Server) (n n' : Network) :
  heap n' = heap n → client n' = client n →
  default_servers n' = default_servers n →
  store_ok pool n → store_ok pool n'.
Proof. unfold store_ok. by intros -> -> ->. Qed.

(** A request recorded on the connected session keeps the invariants. *)
Lemma wf_rpc (pool : list Server) (n : Network) (method : string)
  (args : list pyval) :
  wf pool n → wf pool (rpc n method args).1.
Proof.
  intros [Hs Hf]. unfold rpc.
  destruct (is_connected n) eqn:Hc; [|done].
  apply is_connected_Some in Hc as (sid & s & Hcl & Hh & Hp).
  rewrite Hcl. simpl. split.
  - apply store_ok_update_session; [done|]. intros s' Hs'.
    destruct Hs as (_ & _ & Hfired). exact (Hfired sid s' Hs').
  - unfold frame_ok in *. simpl.
    destruct (task n) as [|it server sid'|it server sid'|it server sid'|]; try done.
    + by rewrite Hf in Hh.
    + destruct Hf as (Hc' & Hh' & ?). simplify_eq. 
    + destruct Hf as (Hc' & (s' & Hh' & Hsrv & Hph) & ?).
      rewrite Hcl in Hc'. injection Hc' as <-.
      split; [done|]. split; [|done].
      eexists. rewrite list_lookup_alter_eq, Hh'. simpl. done.
    + destruct Hf as (Hc' & (s' & Hh' & Hsrv & Hph) & ?).
      rewrite Hcl in Hc'. injection Hc' as <-.
      split; [done|]. split; [|done].
      eexists. rewrite list_lookup_alter_eq, Hh'. simpl. done.
Qed.

Lemma wf_stop (pool : list Server) (n : Network) :
  wf pool n → wf pool (stop n).1.
Proof.
  intros [Hs Hf]. unfold stop.
  destruct (is_connected (set_running false n)) eqn:Hc; [|done].
  apply is_connected_Some in Hc as (sid & s & Hcl & Hh & Hp).
  simpl in Hcl, Hh. simpl. rewrite Hcl. simpl. split.
  - apply store_ok_update_session; [done|]. intros s' Hs'. simpl in Hs'.
    rewrite Hh in Hs'. injection Hs' as <-.
    destruct Hs as (_ & _ & Hfired). specialize (Hfired sid s Hh).
    simpl. split; [|done]. intros Hd. apply Hfired in Hd. congruence.
  - unfold frame_ok in *. simpl.
    destruct (task n) as [|it server sid'|it server sid'|it server sid'|]; try done.
    + by rewrite Hf in Hh.
    + destruct Hf as (Hc' & Hh' & ?). rewrite Hcl in Hc'. injection Hc' as <-.
      rewrite Hh in Hh'. injection Hh' as ->. done.
    + destruct Hf as (Hc' & (s' & Hh' & Hsrv & Hph) & ?).
      rewrite Hcl in Hc'. injection Hc' as <-.
      split; [done|]. split; [|done].
      eexists. rewrite list_lookup_alter_eq, Hh'. simpl. eauto.
    + destruct Hf as (Hc' & (s' & Hh' & Hsrv & Hph) & ?).
      rewrite Hcl in Hc'. injection Hc' as <-.
      split; [done|]. split; [|done].
      eexists. rewrite list_lookup_alter_eq, Hh'. simpl. eauto.
Qed.

(** What [create_connection] returning does when the coroutine awaits it on
    the session in [self.client]: the session is open, the [server.version]
    request is recorded on it and the coroutine awaits the reply. *)
Lemma resume_connect_ok_client (n : Network) (it : nat) (server : Server)
  (sid : nat) (s : ClientSession) :
  client n = Some sid → heap n !! sid = Some s →
  resume_connect_ok __version__ n it server sid =
    set_task (AwaitVersion it server sid)
      (update_session sid
         (record_request "server.version" [PyStr __version__; PyStr "1.2"])
         (update_session sid (set_phase Open) n)).
Proof.
  intros Hcl Hh.
  unfold resume_connect_ok, ensure_server_version, rpc.
  assert (Hc : is_connected (update_session sid (set_phase Open) n) = true).
  { unfold is_connected. simpl. rewrite Hcl, list_lookup_alter_eq, Hh. done. }
  rewrite Hc. simpl. rewrite Hcl. done.
Qed.

Lemma resume_connect_ok_eq (pool : list Server) (n : Network) (it : nat)
  (server : Server) (sid : nat) :
  wf pool n → task n = AwaitConnect it server sid →
  resume_connect_ok __version__ n it server sid =
    set_task (AwaitVersion it server sid)
      (update_session sid
         (record_request "server.version" [PyStr __version__; PyStr "1.2"])
         (update_session sid (set_phase Open) n)).
Proof.
  intros [Hs Hf] Ht. unfold frame_ok in Hf. rewrite Ht in Hf.
  destruct Hf as (Hcl & Hh & _). by eapply resume_connect_ok_client.
Qed.

Lemma wf_resume_connect_ok (pool : list Server) (n : Network) (it : nat)
  (server : Server) (sid : nat) :
  wf pool n → task n = AwaitConnect it server sid →
  wf pool (resume_connect_ok __version__ n it server sid).
Proof.
  intros Hwf Ht. rewrite (resume_connect_ok_eq pool) by done.
  destruct Hwf as [Hs Hf]. unfold frame_ok in Hf. rewrite Ht in Hf.
  destruct Hf as (Hcl & Hh & Hit & Hcy). split.
  - eapply (store_ok_streams _ (update_session sid _ (update_session sid _ n)));
      [done..|].
    apply store_ok_update_session; [apply store_ok_update_session; [done|]|].
    + intros s Hs'. rewrite Hh in Hs'. by injection Hs' as <-.
    + intros s Hs'. simpl in Hs'. rewrite list_lookup_alter_eq, Hh in Hs'.
      by injection Hs' as <-.
  - unfold frame_ok. simpl. split; [done|]. split; [|done].
    eexists. rewrite !list_lookup_alter_eq, Hh. simpl. eauto.
Qed.

Lemma wf_resume_version_ok (pool : list Server) (n : Network) (it : nat)
  (server : Server) (sid : nat) :
  wf pool n → task n = AwaitVersion it server sid →
  wf pool (resume_version_ok n it server).
Proof.
  intros [Hs Hf] Ht. unfold frame_ok in Hf. rewrite Ht in Hf.
  destruct Hf as (Hcl & Hh & Hit & Hcy).
  unfold resume_version_ok. simpl. rewrite Hcl. split; [done|].
  unfold frame_ok. simpl. done.
Qed.

Lemma wf_connection_lost (pool : list Server) (n n' : Network) (sid : nat) :
  wf pool n → connection_lost n sid = Some n' → wf pool n'.
Proof.
  intros [Hs Hf]. unfold connection_lost.
  destruct (heap n !! sid) as [s|] eqn:Hh; [|done].
  case_bool_decide as Hp; [|done]. intros [= <-].
  assert (Hs1 : store_ok pool (update_session sid session_connection_lost n)).
  { apply store_ok_update_session; [done|]. intros s' _. simpl.
    unfold disconnect_fired. simpl. rewrite bool_decide_eq_true.
    split; [done|]. intros _. by destruct (published _). }
  assert (Hother : ∀ sid' : nat, sid' ≠ sid →
            heap (update_session sid session_connection_lost n) !! sid' =
            heap n !! sid').
  { intros sid' Hne. simpl. by rewrite list_lookup_alter_ne. }
  simpl. unfold frame_ok in Hf.
  destruct (task n) as [|it server sid'|it server sid'|it server sid'|] eqn:Ht.
  - by rewrite Hf in Hh.
  - split; [done|]. unfold frame_ok. simpl. rewrite Ht.
    destruct Hf as (Hcl & Hh' & ?). split; [done|]. split; [|done].
    rewrite list_lookup_alter_ne; [done|]. intros <-.
    rewrite Hh in Hh'. injection Hh' as ->. by destruct Hp.
  - case_decide as Hd.
    + by apply store_ok_except_handler.
    + split; [done|]. unfold frame_ok. simpl. rewrite Ht.
      destruct Hf as (Hcl & Hh' & ?). split; [done|]. split; [|done].
      by rewrite list_lookup_alter_ne.
  - case_decide as Hd.
    + by apply store_ok_end_of_iteration.
    + split; [done|]. unfold frame_ok. simpl. rewrite Ht.
      destruct Hf as (Hcl & Hh' & ?). split; [done|]. split; [|done].
      by rewrite list_lookup_alter_ne.
  - split; [done|]. unfold frame_ok. simpl. by rewrite Ht.
Qed.

Lemma step_wf (pool : list Server) (n n' : Network) (e : Event) :
  wf pool n → step __version__ n e = Some n' → wf pool n'.
Proof.
  intros Hwf He. destruct e; simpl in He.
  - assert (n' = start n) as -> by (destruct (task n); naive_solver).
    apply store_ok_next_server. by destruct Hwf.
  - injection He as <-. by apply wf_stop.
  - destruct (task n) eqn:Ht; try done. injection He as <-.
    by apply wf_resume_connect_ok.
  - destruct (task n) eqn:Ht; try done. injection He as <-.
    apply store_ok_except_handler. by destruct Hwf.
  - destruct (task n) eqn:Ht; try done. injection He as <-.
    by eapply wf_resume_version_ok.
  - destruct (task n) eqn:Ht; try done. injection He as <-.
    apply store_ok_except_handler. by destruct Hwf.
  - by eapply wf_connection_lost.
  - injection He as <-. destruct Hwf as [Hs Hf]. unfold handle_request.
    destruct (subscription_controllers n !! method) as [[]|]; done.
  - injection He as <-. destruct Hwf as [Hs Hf]. by destruct s.
  - injection He as <-. rewrite facade_rpc. by apply wf_rpc.
Qed.

Lemma wf_init (pool : list Server) : wf pool (init pool).
Proof. done. Qed.

Lemma run_wf (pool : list Server) (evs : list Event) (n n' : Network) :
  wf pool n → run __version__ n evs = Some n' → wf pool n'.
Proof.
  revert n. induction evs as [|e evs IH]; intros n Hwf; simpl.
  - by intros [= <-].
  - destruct (step __version__ n e) as [n1|] eqn:He; [|done].
    apply IH. by eapply step_wf.
Qed.

Lemma reachable_wf (pool : list Server) (n : Network) :
  reachable __version__ pool n → wf pool n.
Proof. intros [evs Hr]. eapply run_wf; [apply wf_init|done]. Qed.

Lemma reachable_step (pool : list Server) (n n' : Network) (e : Event) :
  reachable __version__ pool n → step __version__ n e = Some n' →
  reachable __version__ pool n'.
Proof.
  intros [evs Hr] He. exists (evs ++ [e]). revert Hr.
  generalize (init pool). induction evs as [|e' evs IH]; intros n0; simpl.
  - intros [= ->]. by rewrite He.
  - destruct (step __version__ n0 e'); [apply IH|done].
Qed.

Lemma reachable_run (pool : list Server) (evs : list Event) (n n' : Network) :
  reachable __version__ pool n → run __version__ n evs = Some n' →
  reachable __version__ pool n'.
Proof.
  revert n. induction evs as [|e evs IH]; intros n Hr; simpl.
  - by intros [= <-].
  - destruct (step __version__ n e) as [n1|] eqn:He; [|done].
    apply IH. by eapply reachable_step.
Qed.

Lemma heap_extends_refl (n n' : Network) :
  heap n' = heap n → heap_extends n n'.
Proof. intros Hh sid s Hs. exists s. by rewrite Hh. Qed.

Lemma heap_extends_trans (n1 n2 n3 : Network) :
  heap_extends n1 n2 → heap_extends n2 n3 → heap_extends n1 n3.
Proof.
  intros H12 H23 sid s Hs.
  destruct (H12 sid s Hs) as (s2 & Hs2 & Hsrv2 & Hf2).
  destruct (H23 sid s2 Hs2) as (s3 & Hs3 & Hsrv3 & Hf3).
  exists s3. split; [done|]. split; [congruence|auto].
Qed.

Lemma heap_extends_update_session (n : Network) (sid : nat)
  (f : ClientSession → ClientSession) :
  (∀ s, server_of (f s) = server_of s ∧
        (disconnect_fired s = true → disconnect_fired (f s) = true)) →
  heap_extends n (update_session sid f n).
Proof.
  intros Hf sid' s Hs. simpl. destruct (decide (sid = sid')) as [<-|Hne].
  - exists (f s). rewrite list_lookup_alter_eq, Hs. split; [done|apply Hf].
  - exists s. by rewrite list_lookup_alter_ne.
Qed.

Lemma heap_extends_end_of_iteration (n : Network) (it : nat) :
  heap_extends n (end_of_iteration n it).
Proof.
  unfold end_of_iteration, next_server.
  destruct (running n); [|by apply heap_extends_refl].
  destruct (cycle_next (default_servers n) it) as [server|];
    [|by apply heap_extends_refl].
  intros sid s0 Hs. exists s0. simpl. split; [|done].
  by apply lookup_app_l_Some.
Qed.

Lemma heap_extends_except_handler (n : Network) (it : nat) (server : Server) :
  heap_extends n (except_handler n it server).
Proof. apply (heap_extends_end_of_iteration (add_log _ n)). Qed.

Lemma heap_extends_rpc (n : Network) (method : string) (args : list pyval) :
  heap_extends n (rpc n method args).1.
Proof.
  unfold rpc. destruct (is_connected n); [|by apply heap_extends_refl].
  destruct (client n); [|by apply heap_extends_refl].
  by apply heap_extends_update_session.
Qed.

Lemma step_heap_extends (n n' : Network) (e : Event) :
  step __version__ n e = Some n' → heap_extends n n'.
Proof.
  destruct e; simpl; intros He.
  - assert (n' = start n) as -> by (destruct (task n); naive_solver).
    unfold start, next_server. simpl.
    destruct (cycle_next (default_servers n) 0) as [server|];
      [|by apply heap_extends_refl].
    intros sid s0 Hs. exists s0. simpl. split; [|done]. by apply lookup_app_l_Some.
  - injection He as <-. unfold stop.
    destruct (is_connected _); [|by apply heap_extends_refl].
    destruct (client _); [|by apply heap_extends_refl].
    by apply (heap_extends_update_session (set_running false n)).
  - destruct (task n); try done. injection He as <-.
    unfold resume_connect_ok, ensure_server_version.
    eapply heap_extends_trans;
      [by apply (heap_extends_update_session n sid (set_phase Open))|].
    pose proof (heap_extends_rpc (update_session sid (set_phase Open) n)
                  "server.version" [PyStr __version__; PyStr "1.2"]) as Hx.
    simpl. destruct (rpc _ _ _) as [n2 [[sid' m a]|ex]]; simpl in Hx.
    + eapply heap_extends_trans; [exact Hx|]. by apply heap_extends_refl.
    + eapply heap_extends_trans; [exact Hx|]. apply heap_extends_except_handler.
  - destruct (task n); try done. injection He as <-.
    apply heap_extends_except_handler.
  - destruct (task n); try done. injection He as <-.
    unfold resume_version_ok. simpl.
    destruct (client n); [by apply heap_extends_refl|].
    apply (heap_extends_except_handler (set_on_connected _ (add_log _ n))).
  - destruct (task n); try done. injection He as <-.
    apply heap_extends_except_handler.
  - unfold connection_lost in He.
    destruct (heap n !! sid) as [s|] eqn:Hh; [|done].
    case_bool_decide; [|done]. injection He as <-.
    eapply heap_extends_trans.
    { apply (heap_extends_update_session n sid session_connection_lost).
      intros s0. split; [done|]. intros _. unfold disconnect_fired. simpl.
      rewrite bool_decide_eq_true. by destruct (published _). }
    simpl. destruct (task n); try (by apply heap_extends_refl);
      case_decide; try (by apply heap_extends_refl).
    + apply heap_extends_except_handler.
    + apply heap_extends_end_of_iteration.
  - injection He as <-. apply heap_extends_refl. unfold handle_request.
    by destruct (subscription_controllers n !! method) as [[]|].
  - injection He as <-. apply heap_extends_refl. by destruct s.
  - injection He as <-. rewrite facade_rpc. apply heap_extends_rpc.
Qed.

Lemma run_heap_extends (evs : list Event) (n n' : Network) :
  run __version__ n evs = Some n' → heap_extends n n'.
Proof.
  revert n. induction evs as [|e evs IH]; intros n; simpl.
  - intros [= <-]. by apply heap_extends_refl.
  - destruct (step __version__ n e) as [n1|] eqn:He; [|done].
    intros Hr. eapply heap_extends_trans; [by eapply step_heap_extends|by apply IH].
Qed.


Lemma end_of_iteration_keeps (n : Network) (it sid : nat) (s : ClientSession) :
  heap n !! sid = Some s → heap (end_of_iteration n it) !! sid = Some s.
Proof.
  intros Hs. unfold end_of_iteration, next_server.
  destruct (running n); [|done].
  destruct (cycle_next (default_servers n) it); [|done].
  simpl. by apply lookup_app_l_Some.
Qed.

Lemma except_handler_keeps (n : Network) (it sid : nat) (server : Server)
  (s : ClientSession) :
  heap n !! sid = Some s → heap (except_handler n it server) !! sid = Some s.
Proof. intros Hs. by apply (end_of_iteration_keeps (add_log _ n)). Qed.

(** A session that [self.client] does not designate is out of reach of this
    module: an event leaves it as it is, unless the event is the loss of its
    transport. *)
Lemma step_other_sessions (pool : list Server) (n n' : Network) (e : Event)
  (sid : nat) (s : ClientSession) :
  wf pool n → step __version__ n e = Some n' →
  heap n !! sid = Some s → client n ≠ Some sid →
  heap n' !! sid = Some s ∨
  (e = ConnectionLost sid ∧ heap n' !! sid = Some (session_connection_lost s)).
Proof.
  intros Hwf He Hs Hne. destruct e; simpl in He.
  - assert (n' = start n) as -> by (destruct (task n); congruence).
    left. by apply (end_of_iteration_keeps (set_running true n) 0).
  - injection He as <-. left. unfold stop.
    destruct (is_connected (set_running false n)); [|done].
    simpl. destruct (client n) as [sid'|] eqn:Hcl; [|done]. simpl.
    rewrite list_lookup_alter_ne; [done|]. congruence.
  - destruct (task n) eqn:Ht; try done. injection He as <-. left.
    rewrite (resume_connect_ok_eq pool) by done.
    destruct Hwf as [_ Hf]. unfold frame_ok in Hf. rewrite Ht in Hf.
    destruct Hf as (Hcl & _). simpl.
    rewrite !list_lookup_alter_ne; [done|congruence..].
  - destruct (task n) eqn:Ht; try done. injection He as <-. left.
    by apply except_handler_keeps.
  - destruct (task n) eqn:Ht; try done. injection He as <-. left.
    unfold resume_version_ok. simpl. destruct (client n); [done|].
    by apply (except_handler_keeps (set_on_connected _ (add_log _ n))).
  - destruct (task n) eqn:Ht; try done. injection He as <-. left.
    by apply except_handler_keeps.
  - unfold connection_lost in He.
    destruct (heap n !! sid0) as [s0|] eqn:Hh; [|done].
    case_bool_decide; [|done]. injection He as <-.
    assert (Hx : ∀ sx, heap (update_session sid0 session_connection_lost n) !! sid
                       = Some sx →
              heap (match task (update_session sid0 session_connection_lost n) with
                    | AwaitVersion it server sid' =>
                        if decide (sid' = sid0)
                        then except_handler
                               (update_session sid0 session_connection_lost n)
                               it server
                        else update_session sid0 session_connection_lost n
                    | AwaitDisconnect it server sid' =>
                        if decide (sid' = sid0)
                        then end_of_iteration
                               (update_session sid0 session_connection_lost n) it
                        else update_session sid0 session_connection_lost n
                    | _ => update_session sid0 session_connection_lost n
                    end) !! sid = Some sx).
    { intros sx Hsx. destruct (task _); try done; case_decide; try done.
      - by apply except_handler_keeps.
      - by apply end_of_iteration_keeps. }
    destruct (decide (sid0 = sid)) as [-> | Hd].
    + right. split; [done|]. apply Hx. simpl.
      rewrite list_lookup_alter_eq, Hs. rewrite Hs in Hh. by injection Hh as <-.
    + left. apply Hx. simpl. by rewrite list_lookup_alter_ne.
  - injection He as <-. left. unfold handle_request.
    by destruct (subscription_controllers n !! method) as [[]|].
  - injection He as <-. left. by destruct s0.
  - injection He as <-. left. rewrite facade_rpc. unfold rpc.
    destruct (is_connected n); [|done].
    destruct (client n) as [sid'|] eqn:Hcl; [|done]. simpl.
    rewrite list_lookup_alter_ne; [done|]. congruence.
Qed.

(** C7 (as amended): in every reachable state the network object uses one
    session at most, the one created last: [self.client] designates it and
    the loop awaits no other.  An earlier session is out of use for good, no
    event but the loss of its transport changes it; the loop does not close
    it, so its transport may still be up.  A session whose disconnect
    notification has fired has lost its transport for good: in no later state
    is it active or the target of a connection attempt.  And whenever the
    loop awaits [create_connection], it does so on the session created last,
    bound to the server drawn and still in its initial state. *)
Theorem C7_one_session_in_use_never_reused (pool : list Server) (n : Network) :
  reachable __version__ pool n →
  client n = newest (heap n) ∧
  (∀ it server sid,
     task n = AwaitConnect it server sid ∨ task n = AwaitVersion it server sid ∨
     task n = AwaitDisconnect it server sid →
     client n = Some sid) ∧
  (∀ e n' sid s,
     step __version__ n e = Some n' →
     heap n !! sid = Some s → client n ≠ Some sid →
     heap n' !! sid = Some s ∨
     (e = ConnectionLost sid ∧ heap n' !! sid = Some (session_connection_lost s))) ∧
  (∀ sid s, heap n !! sid = Some s → disconnect_fired s = true →
     ∀ evs n', run __version__ n evs = Some n' →
       (∃ s', heap n' !! sid = Some s' ∧ phase s' = Lost) ∧
       ¬ active n' sid ∧
       ∀ it server, task n' ≠ AwaitConnect it server sid) ∧
  (∀ it server sid, task n = AwaitConnect it server sid →
     client n = Some sid ∧ length (heap n) = S sid ∧
     heap n !! sid = Some (new_session server)).
Proof.
  intros Hr. pose proof (reachable_wf pool n Hr) as Hwf.
  split; [by destruct Hwf as [(_ & ? & _) _]|]. split; [|split; [|split]].
  - intros it server sid Ht. destruct Hwf as [_ Hf]. unfold frame_ok in Hf.
    destruct Ht as [Ht|[Ht|Ht]]; rewrite Ht in Hf; by destruct Hf.
  - intros e n' sid s. by apply (step_other_sessions pool).
  - intros sid s Hs Hfired evs n' Hrun.
    destruct (run_heap_extends _ _ _ Hrun sid s Hs) as (s' & Hs' & _ & Hf').
    specialize (Hf' Hfired).
    destruct (reachable_wf pool n' (reachable_run _ _ _ _ Hr Hrun))
      as [(_ & _ & Hlost) Hframe].
    apply (Hlost sid s' Hs') in Hf'. split; [by exists s'|]. split.
    + intros (_ & s2 & Hs2 & Hcl). rewrite Hs' in Hs2. injection Hs2 as <-.
      unfold is_closing in Hcl. by rewrite Hf' in Hcl.
    + intros it server Ht. unfold frame_ok in Hframe. rewrite Ht in Hframe.
      destruct Hframe as (_ & Hnew & _). rewrite Hs' in Hnew.
      injection Hnew as ->. done.
  - intros it server sid Ht.
    destruct Hwf as [(_ & Hcl & _) Hframe].
    unfold frame_ok in Hframe. rewrite Ht in Hframe.
    destruct Hframe as (Hc & Hnew & _). split; [done|]. split; [|done].
    apply newest_Some. congruence.
Qed.

(** ** Stopping *)

Lemma set_running_id (n : Network) (b : bool) :
  running n = b → set_running b n = n.
Proof. destruct n. simpl. by intros ->. Qed.

Lemma stop_idle (n : Network) :
  running n = false → is_connected n = false → stop n = (n, None).
Proof.
  intros Hr Hc. unfold stop. rewrite (set_running_id n false Hr). by rewrite Hc.
Qed.

Lemma stop_closes (n : Network) (sid : nat) :
  (stop n).2 = Some sid → stopping sid (stop n).1.
Proof.
  unfold stop. destruct (is_connected (set_running false n)) eqn:Hc; [|done].
  apply is_connected_Some in Hc as (sid' & s & Hcl & Hh & Hp).
  rewrite Hcl. simpl. intros [= <-]. split; [done|]. split; [done|].
  exists (set_phase Closing s). simpl in Hh. simpl.
  by rewrite list_lookup_alter_eq, Hh.
Qed.

Lemma stopping_not_connected (sid : nat) (n : Network) :
  stopping sid n → is_connected n = false.
Proof.
  intros (_ & Hcl & s & Hh & Hp). unfold is_connected, is_closing.
  by rewrite Hcl, Hh, Hp.
Qed.

Lemma stopping_end_of_iteration (sid : nat) (n : Network) (it : nat) :
  stopping sid n → stopping sid (end_of_iteration n it).
Proof.
  intros (Hr & Hcl & Hs). unfold end_of_iteration. by rewrite Hr.
Qed.

Lemma stopping_except_handler (sid : nat) (n : Network) (it : nat)
  (server : Server) :
  stopping sid n → stopping sid (except_handler n it server).
Proof. intros H. by apply (stopping_end_of_iteration sid (add_log _ n)). Qed.

(** While [stop()] waits, no event but a new [start()] or the awaited
    disconnect takes the network object out of that state. *)
Lemma step_stopping (pool : list Server) (sid : nat) (n n' : Network) (e : Event) :
  wf pool n → stopping sid n →
  e ≠ Start → e ≠ ConnectionLost sid →
  step __version__ n e = Some n' → stopping sid n'.
Proof.
  intros [Hst Hfr] Hk HnS HnL He.
  pose proof Hk as (Hr & Hcl & s & Hh & Hp).
  destruct e; simpl in He; try done.
  - injection He as <-.
    by rewrite (stop_idle n Hr (stopping_not_connected sid n Hk)).
  - destruct (task n) eqn:Ht; try done. unfold frame_ok in Hfr.
    rewrite Ht in Hfr. destruct Hfr as (Hcl' & Hnew & _).
    rewrite Hcl in Hcl'. injection Hcl' as <-.
    rewrite Hh in Hnew. injection Hnew as ->. done.
  - destruct (task n) eqn:Ht; try done. injection He as <-.
    by apply stopping_except_handler.
  - destruct (task n) eqn:Ht; try done. injection He as <-.
    unfold resume_version_ok. simpl. by rewrite Hcl.
  - destruct (task n) eqn:Ht; try done. injection He as <-.
    by apply stopping_except_handler.
  - unfold connection_lost in He.
    destruct (heap n !! sid0) as [s0|] eqn:Hh0; [|done].
    case_bool_decide; [|done]. injection He as <-.
    assert (Hk1 : stopping sid (update_session sid0 session_connection_lost n)).
    { split; [done|]. split; [done|]. exists s. split; [|done].
      simpl. rewrite list_lookup_alter_ne; [done|]. congruence. }
    simpl. destruct (task n); try done; case_decide; try done.
    + by apply stopping_except_handler.
    + by apply stopping_end_of_iteration.
  - injection He as <-. unfold handle_request.
    by destruct (subscription_controllers n !! method) as [[]|].
  - injection He as <-. by destruct s0.
  - injection He as <-. rewrite facade_rpc.
    by rewrite (rpc_disconnected _ _ _ (stopping_not_connected sid n Hk)).
Qed.

Lemma run_stopping (pool : list Server) (sid : nat) (evs : list Event)
  (n n' : Network) :
  wf pool n → stopping sid n →
  Start ∉ evs → ConnectionLost sid ∉ evs →
  run __version__ n evs = Some n' → stopping sid n'.
Proof.
  revert n. induction evs as [|e evs IH]; intros n Hwf Hk HnS HnL; simpl.
  - by intros [= <-].
  - destruct (step __version__ n e) as [n1|] eqn:He; [|done].
    apply not_elem_of_cons in HnS as [? ?]. apply not_elem_of_cons in HnL as [? ?].
    apply IH; [by eapply step_wf|by eapply (step_stopping pool)|done..].
Qed.

(** The awaited disconnect arrives: [stop()] returns. *)
Lemma stopping_resolves (sid : nat) (n : Network) :
  stopping sid n →
  ∃ n', step __version__ n (ConnectionLost sid) = Some n' ∧
    running n' = false ∧ client n' = Some sid ∧
    ∃ s', heap n' !! sid = Some s' ∧ phase s' = Lost ∧ disconnect_fired s' = true.
Proof.
  intros (Hr & Hcl & s & Hh & Hp). simpl. unfold connection_lost.
  rewrite Hh, bool_decide_eq_true_2 by (by right).
  eexists. split; [done|].
  assert (Hk : ∀ n1, running n1 = running n → client n1 = client n →
             heap n1 = alter session_connection_lost sid (heap n) →
             running n1 = false ∧ client n1 = Some sid ∧
             ∃ s', heap n1 !! sid = Some s' ∧ phase s' = Lost ∧
                   disconnect_fired s' = true).
  { intros n1 -> -> ->. split; [done|]. split; [done|].
    exists (session_connection_lost s). rewrite list_lookup_alter_eq, Hh.
    split; [done|]. split; [done|]. unfold disconnect_fired. simpl.
    rewrite bool_decide_eq_true. by destruct (published _). }
  simpl. unfold except_handler, end_of_iteration. simpl. rewrite Hr.
  destruct (task n); try (by apply Hk); case_decide; by apply Hk.
Qed.

(** ** The failover loop *)

Lemma cycle_next_nonempty (pool : list Server) (it : nat) :
  pool ≠ [] → is_Some (cycle_next pool it).
Proof.
  intros Hne. destruct pool as [|x pool]; [done|].
  unfold cycle_next. apply lookup_lt_is_Some.
  apply Nat.mod_upper_bound. done.
Qed.

Lemma frame_ok_pool_nonempty (n : Network) (it : nat) (server : Server) :
  0 < it ∧ cycle_next (default_servers n) (it - 1) = Some server →
  default_servers n ≠ [].
Proof. intros [_ Hc] Hnil. by rewrite Hnil in Hc. Qed.

(** The exception handler of a running loop goes on with the next server of
    the cycle, on a session built for it; with the stop flag set it ends the
    loop.  In both cases [on_connected] is left alone. *)
Lemma except_handler_spec (n : Network) (it : nat) (server : Server) :
  default_servers n ≠ [] →
  published (_on_connected_controller (except_handler n it server)) =
    published (_on_connected_controller n) ∧
  if running n then
    ∃ server', cycle_next (default_servers n) it = Some server' ∧
      task (except_handler n it server) =
        AwaitConnect (S it) server' (length (heap n)) ∧
      client (except_handler n it server) = Some (length (heap n)) ∧
      heap (except_handler n it server) = heap n ++ [new_session server']
  else task (except_handler n it server) = Finished.
Proof.
  intros Hne. unfold except_handler, end_of_iteration, next_server. simpl.
  destruct (cycle_next_nonempty (default_servers n) it Hne) as [server' Hs].
  destruct (running n); rewrite ?Hs; simpl; [|done].
  split; [done|]. by exists server'.
Qed.

Lemma attempted_update_session (n : Network) (sid : nat)
  (f : ClientSession → ClientSession) :
  (∀ s, server_of (f s) = server_of s) →
  attempted (update_session sid f n) = attempted n.
Proof.
  intros Hf. unfold attempted. simpl. apply list_eq. intros i.
  rewrite !list_lookup_fmap. destruct (decide (sid = i)) as [<-|Hne].
  - rewrite list_lookup_alter_eq. destruct (heap n !! sid); simpl; by rewrite ?Hf.
  - by rewrite list_lookup_alter_ne.
Qed.

(** Drawing the next server in a running loop. *)
Lemma next_server_at_head (pool : list Server) (n : Network) (it : nat) :
  pool ≠ [] → default_servers n = pool → running n = true →
  at_head pool (next_server n it) it (length (heap n)) ∧
  attempted (next_server n it) = attempted n ++ omap (cycle_next pool) [it].
Proof.
  intros Hne Hp Hr. unfold next_server. rewrite Hp.
  destruct (cycle_next_nonempty pool it Hne) as [server Hs]. rewrite Hs.
  split.
  - split; [done|]. split; [done|]. split; [done|]. simpl.
    split; [rewrite length_app; simpl; lia|].
    exists server. split; [done|]. split; [done|].
    by rewrite lookup_app_r, Nat.sub_diag.
  - unfold attempted. simpl. by rewrite fmap_app, Hs.
Qed.

Lemma end_of_iteration_at_head (pool : list Server) (n : Network) (it : nat) :
  pool ≠ [] → default_servers n = pool → running n = true →
  at_head pool (end_of_iteration n it) it (length (heap n)) ∧
  attempted (end_of_iteration n it) = attempted n ++ omap (cycle_next pool) [it].
Proof.
  intros Hne Hp Hr. unfold end_of_iteration. rewrite Hr.
  by apply next_server_at_head.
Qed.

(** One attempt, however it ends, leaves a running loop at the top of the
    next iteration, one server further in the cycle. *)
Lemma attempt_at_head (pool : list Server) (n : Network) (it sid : nat)
  (a : Attempt) :
  pool ≠ [] → at_head pool n it sid →
  ∃ n', run __version__ n (attempt_events a sid) = Some n' ∧
    at_head pool n' (S it) (S sid) ∧
    attempted n' = attempted n ++ omap (cycle_next pool) [S it].
Proof.
  intros Hne (Hp & Hr & Hcl & Hlen & server & Hcy & Ht & Hh).
  destruct a; simpl.
  - rewrite Ht. eexists. split; [done|]. rewrite <- Hlen.
    apply (end_of_iteration_at_head pool (add_log _ n)); done.
  - rewrite Ht. rewrite (resume_connect_ok_client n _ _ _ _ Hcl Hh). simpl.
    eexists. split; [done|]. unfold except_handler.
    match goal with |- context [end_of_iteration ?m _] =>
      destruct (end_of_iteration_at_head pool m (S it) Hne) as [Hhd Hatt];
        [done|done|] end.
    simpl in Hhd, Hatt. rewrite !length_alter, Hlen in Hhd.
    split; [exact Hhd|]. rewrite Hatt. f_equal.
    unfold attempted. simpl. apply list_eq. intros i.
    rewrite !list_lookup_fmap. destruct (decide (sid = i)) as [<-|Hn].
    + rewrite !list_lookup_alter_eq. by destruct (heap n !! sid).
    + by rewrite !list_lookup_alter_ne.
  - rewrite Ht. rewrite (resume_connect_ok_client n _ _ _ _ Hcl Hh). simpl.
    unfold resume_version_ok. simpl. rewrite Hcl. simpl.
    unfold connection_lost. simpl.
    rewrite !list_lookup_alter_eq, Hh. simpl.
    rewrite decide_True by done.
    eexists. split; [done|].
    match goal with |- context [end_of_iteration ?m _] =>
      destruct (end_of_iteration_at_head pool m (S it) Hne) as [Hhd Hatt];
        [done|done|] end.
    simpl in Hhd, Hatt. rewrite !length_alter, Hlen in Hhd.
    split; [exact Hhd|]. rewrite Hatt. f_equal.
    unfold attempted. simpl. apply list_eq. intros i.
    rewrite !list_lookup_fmap. destruct (decide (sid = i)) as [<-|Hn].
    + rewrite !list_lookup_alter_eq. by destruct (heap n !! sid).
    + by rewrite !list_lookup_alter_ne.
Qed.

Lemma attempts_at_head (pool : list Server) (outcomes : list Attempt)
  (n : Network) (it sid : nat) :
  pool ≠ [] → at_head pool n it sid →
  ∃ n', run __version__ n (attempts_events outcomes sid) = Some n' ∧
    at_head pool n' (it + length outcomes) (sid + length outcomes) ∧
    attempted n' =
      attempted n ++ omap (cycle_next pool) (seq (S it) (length outcomes)).
Proof.
  intros Hne. revert n it sid.
  induction outcomes as [|a rest IH]; intros n it sid Hhd; simpl.
  - exists n. rewrite !Nat.add_0_r, app_nil_r. done.
  - destruct (attempt_at_head pool n it sid a Hne Hhd) as (n1 & Hr1 & Hhd1 & Ha1).
    destruct (IH n1 (S it) (S sid) Hhd1) as (n2 & Hr2 & Hhd2 & Ha2).
    exists n2. split; [|split].
    + clear -Hr1 Hr2. revert n Hr1.
      induction (attempt_events a sid) as [|e evs IHe]; intros n; simpl.
      * by intros [= ->].
      * destruct (step __version__ n e); [apply IHe|done].
    + by rewrite <- !Nat.add_succ_comm.
    + rewrite Ha2, Ha1, <- app_assoc. f_equal. simpl.
      by destruct (cycle_next pool (S it)).
Qed.

Lemma cycle_take_covers (pool : list Server) (k : nat) (server : Server) :
  (length pool ≤ k)%nat → server ∈ pool → server ∈ cycle_take pool k.
Proof.
  intros Hk Hin. apply list_elem_of_lookup in Hin as [i Hi].
  pose proof (lookup_lt_Some _ _ _ Hi) as Hlt.
  unfold cycle_take. apply list_elem_of_omap. exists i. split.
  - apply elem_of_seq. lia.
  - unfold cycle_next. destruct pool as [|x pool]; [done|].
    by rewrite Nat.mod_small.
Qed.

Lemma stop_flag_end_of_iteration (pool : list Server) (seen : Prop)
  (n : Network) (it : nat) :
  pool ≠ [] → default_servers n = pool → (running n = false → seen) →
  stop_flag_inv pool seen (end_of_iteration n it).
Proof.
  intros Hne Hp Hs. unfold end_of_iteration, next_server. rewrite Hp.
  destruct (cycle_next_nonempty pool it Hne) as [server ->].
  destruct (running n) eqn:Hr; (split; [done|]); simpl; split; try done.
  - by rewrite Hr.
  - intros _. right. by apply Hs.
Qed.

Lemma stop_flag_except_handler (pool : list Server) (seen : Prop)
  (n : Network) (it : nat) (server : Server) :
  pool ≠ [] → default_servers n = pool → (running n = false → seen) →
  stop_flag_inv pool seen (except_handler n it server).
Proof. intros. by apply (stop_flag_end_of_iteration pool seen (add_log _ n)). Qed.

Lemma stop_flag_streams (pool : list Server) (seen : Prop) (n n' : Network) :
  default_servers n' = default_servers n → task n' = task n →
  running n' = running n →
  stop_flag_inv pool seen n → stop_flag_inv pool seen n'.
Proof. unfold stop_flag_inv. by intros -> -> ->. Qed.

Lemma rpc_frame (n : Network) (method : string) (args : list pyval) :
  default_servers (rpc n method args).1 = default_servers n ∧
  task (rpc n method args).1 = task n ∧
  running (rpc n method args).1 = running n.
Proof. unfold rpc. destruct (is_connected n); [|done]. by destruct (client n). Qed.

Lemma step_stop_flag (pool : list Server) (seen : Prop) (n n' : Network)
  (e : Event) :
  pool ≠ [] → stop_flag_inv pool seen n →
  step __version__ n e = Some n' →
  stop_flag_inv pool (seen ∨ e = Stop) n'.
Proof.
  intros Hne (Hp & Hfin & Hrun) He.
  assert (Hseen : ∀ m, running m = running n → task n ≠ NotStarted →
                    running m = false → seen ∨ e = Stop).
  { intros m Hm Ht Hf. rewrite Hm in Hf. destruct (Hrun Hf); [done|by left]. }
  destruct e; simpl in He.
  - assert (n' = start n) as -> by (destruct (task n); naive_solver).
    unfold start, next_server. simpl. rewrite Hp.
    destruct (cycle_next_nonempty pool 0 Hne) as [server ->].
    split; [done|]. simpl. done.
  - injection He as <-. unfold stop.
    destruct (is_connected _); [destruct (client _)|];
      (split; [done|]); simpl; (split; [done|]); intros _; by right; right.
  - destruct (task n) eqn:Ht; try done. injection He as <-.
    unfold resume_connect_ok, ensure_server_version.
    pose proof (rpc_frame (update_session sid (set_phase Open) n)
                  "server.version" [PyStr __version__; PyStr "1.2"])
      as (Hd & Hta & Hru).
    destruct (rpc _ _ _) as [n2 [[sid' m a]|ex]]; simpl in Hd, Hta, Hru.
    + split; [by rewrite <- Hp|]. simpl. split; [done|]. intros Hf. right.
      by apply (Hseen n2).
    + apply stop_flag_except_handler; [done|by rewrite <- Hp|by apply Hseen].
  - destruct (task n) eqn:Ht; try done. injection He as <-.
    apply stop_flag_except_handler; [done|done|by apply Hseen].
  - destruct (task n) eqn:Ht; try done. injection He as <-.
    unfold resume_version_ok. simpl. destruct (client n).
    + split; [done|]. simpl. split; [done|]. intros Hf. right.
      by apply (Hseen n).
    + apply (stop_flag_except_handler pool _ (set_on_connected _ (add_log _ n)));
        [done|done|by apply (Hseen n)].
  - destruct (task n) eqn:Ht; try done. injection He as <-.
    apply stop_flag_except_handler; [done|done|by apply Hseen].
  - unfold connection_lost in He.
    destruct (heap n !! sid) as [s|] eqn:Hh; [|done].
    case_bool_decide; [|done]. injection He as <-. simpl.
    assert (Hsame : stop_flag_inv pool (seen ∨ ConnectionLost sid = Stop)
                      (update_session sid session_connection_lost n)).
    { split; [done|]. split; [done|]. intros Hf.
      destruct (Hrun Hf); [by left|by right; left]. }
    destruct (task n) eqn:Ht; try done; case_decide; try done.
    + apply stop_flag_except_handler; [done|done|].
      by apply (Hseen (update_session sid session_connection_lost n)).
    + apply stop_flag_end_of_iteration; [done|done|].
      by apply (Hseen (update_session sid session_connection_lost n)).
  - injection He as <-.
    assert (Hsame : stop_flag_inv pool (seen ∨ Push method args = Stop) n).
    { split; [done|]. split; [done|]. intros Hf.
      destruct (Hrun Hf); [by left|by right; left]. }
    unfold handle_request.
    by destruct (subscription_controllers n !! method) as [[]|].
  - injection He as <-.
    assert (Hsame : stop_flag_inv pool (seen ∨ Listen s = Stop) n).
    { split; [done|]. split; [done|]. intros Hf.
      destruct (Hrun Hf); [by left|by right; left]. }
    by destruct s.
  - injection He as <-.
    assert (Hsame : stop_flag_inv pool (seen ∨ Request c = Stop) n).
    { split; [done|]. split; [done|]. intros Hf.
      destruct (Hrun Hf); [by left|by right; left]. }
    rewrite facade_rpc.
    destruct (rpc_frame n (wire_method c) (wire_args c)) as (? & ? & ?).
    by eapply stop_flag_streams.
Qed.

Lemma run_stop_flag (pool : list Server) (evs : list Event) (seen : Prop)
  (n n' : Network) :
  pool ≠ [] → stop_flag_inv pool seen n →
  run __version__ n evs = Some n' →
  stop_flag_inv pool (seen ∨ Stop ∈ evs) n'.
Proof.
  intros Hne. revert seen n.
  induction evs as [|e evs IH]; intros seen n Hinv; simpl.
  - intros [= <-]. destruct Hinv as (? & ? & Hrun).
    split; [done|]. split; [done|]. intros Hf.
    destruct (Hrun Hf); [by left|by right; left].
  - destruct (step __version__ n e) as [n1|] eqn:He; [|done]. intros Hr.
    destruct (IH _ _ (step_stop_flag pool seen n n1 e Hne Hinv He) Hr)
      as (? & ? & Hrun).
    split; [done|]. split; [done|]. intros Hf.
    destruct (Hrun Hf) as [?|[[?|Heq]|?]];
      [by left|by right; left|subst e; right; right; by left
      |right; right; by right].
Qed.

(** C3 (as amended): with a non-empty pool, whatever the way each connection
    attempt ends, the loop started by [start()] is still running after the
    attempts, has tried the servers in the order of the cycle, hence every
    server of the pool once it has made as many attempts as the pool has
    entries, and awaits the next one; and whatever happens to the network
    object, a loop that has returned has its running flag cleared, which only
    an explicit [stop()] does. *)
Theorem C3_failover_loop_cycles (pool : list Server) :
  pool ≠ [] →
  (∀ outcomes : list Attempt,
     ∃ n, run __version__ (init pool) (Start :: attempts_events outcomes 0) = Some n ∧
       running n = true ∧ ¬ loop_terminated n ∧
       attempted n = cycle_take pool (S (length outcomes)) ∧
       ((length pool ≤ S (length outcomes))%nat →
        ∀ server, server ∈ pool → server ∈ attempted n)) ∧
  (∀ evs n,
     run __version__ (init pool) evs = Some n →
     loop_terminated n → running n = false ∧ Stop ∈ evs).
Proof.
  intros Hne. split.
  - intros outcomes. simpl.
    destruct (next_server_at_head pool (set_running true (init pool)) 0 Hne)
      as [Hhd Hatt]; [done..|].
    destruct (attempts_at_head pool outcomes _ 0 0 Hne Hhd)
      as (n & Hrun & Hhd' & Hatt').
    exists n. split; [exact Hrun|].
    destruct Hhd' as (_ & Hr & _ & _ & server & _ & Ht & _).
    split; [done|]. split; [unfold loop_terminated; by rewrite Ht|].
    assert (Ha : attempted n = cycle_take pool (S (length outcomes))).
    { rewrite Hatt', Hatt. unfold cycle_take. simpl.
      by destruct (cycle_next pool 0). }
    split; [done|]. intros Hlen server' Hin. rewrite Ha.
    by apply cycle_take_covers.
  - intros evs n Hrun Hfin.
    destruct (run_stop_flag pool evs False (init pool) n Hne) as (_ & Hf & Hs);
      [|done|].
    { split; [done|]. split; [done|]. intros _. by left. }
    specialize (Hf Hfin). split; [done|].
    destruct (Hs Hf) as [Hns|[[]|?]]; [|done].
    unfold loop_terminated in Hfin. congruence.
Qed.

(** C6 (as amended): once [create_connection] has returned, the loop sends
    the [server.version] request on the new session and waits for the reply
    before anything is published on [on_connected].  When that request fails,
    [on_connected] does not fire, and the loop, unless the stop flag was set in
    the meantime, goes on to the next server of the pool on a new session;
    with the stop flag set the loop ends. *)
Theorem C6_version_check_is_part_of_attempt (pool : list Server) (n : Network)
  (it : nat) (server : Server) (sid : nat) :
  reachable __version__ pool n →
  (task n = AwaitConnect it server sid →
     ∃ n1 s1, step __version__ n ConnectOk = Some n1 ∧
       task n1 = AwaitVersion it server sid ∧
       heap n1 !! sid = Some s1 ∧ phase s1 = Open ∧
       requests s1 = [("server.version", [PyStr __version__; PyStr "1.2"])] ∧
       published (_on_connected_controller n1) =
         published (_on_connected_controller n)) ∧
  (task n = AwaitVersion it server sid →
     ∃ n', step __version__ n VersionFailed = Some n' ∧
       published (_on_connected_controller n') =
         published (_on_connected_controller n) ∧
       if running n then
         ∃ server', cycle_next pool it = Some server' ∧
           task n' = AwaitConnect (S it) server' (S sid) ∧
           client n' = Some (S sid) ∧
           heap n' = heap n ++ [new_session server']
       else loop_terminated n').
Proof.
  intros Hr. pose proof (reachable_wf pool n Hr) as Hwf. split; intros Ht.
  - simpl. rewrite Ht. rewrite (resume_connect_ok_eq pool) by done.
    destruct Hwf as [_ Hf]. unfold frame_ok in Hf. rewrite Ht in Hf.
    destruct Hf as (Hcl & Hh & _).
    eexists _, _. split; [done|]. split; [done|]. simpl.
    rewrite !list_lookup_alter_eq, Hh. simpl. done.
  - simpl. rewrite Ht. eexists. split; [done|].
    destruct Hwf as [(Hp & Hcl & _) Hf]. unfold frame_ok in Hf. rewrite Ht in Hf.
    destruct Hf as (Hc & _ & Hcy).
    rewrite Hc in Hcl. symmetry in Hcl. apply newest_Some in Hcl.
    pose proof (except_handler_spec n it server
                  (frame_ok_pool_nonempty _ _ _ Hcy)) as [Hpub Hx].
    split; [done|]. rewrite Hp, Hcl in Hx. done.
Qed.

(** C9: [ensure_server_version] is the [rpc] call of ['server.version'] with
    the client's version and the required one, ['1.2'] unless given.  Not
    connected, it raises like every [rpc] call; connected, it is forwarded to
    the active session whatever the two version strings are.  The attempt then
    goes the way of the server's reply: an answer fires [on_connected] and the
    loop waits for the disconnect, a failure does not. *)
Theorem C9_server_version_request (n : Network) :
  ensure_server_version __version__ n None =
    ensure_server_version __version__ n (Some "1.2") ∧
  (∀ required,
     ensure_server_version __version__ n required =
       rpc n "server.version" [PyStr __version__; PyStr (default "1.2" required)]) ∧
  (is_connected n = false →
     ∀ required, ensure_server_version __version__ n required =
                   (n, Raise not_available)) ∧
  (is_connected n = true →
     ∀ own required, ∃ sid,
       active n sid ∧
       ensure_server_version own n (Some required) =
         send_request n sid "server.version" [PyStr own; PyStr required]) ∧
  (∀ it server sid,
     task n = AwaitVersion it server sid → client n = Some sid →
     (∃ n1, step __version__ n VersionOk = Some n1 ∧
        task n1 = AwaitDisconnect it server sid ∧
        published (_on_connected_controller n1) =
          published (_on_connected_controller n) ++ [true]) ∧
     (∃ n2, step __version__ n VersionFailed = Some n2 ∧
        n2 = except_handler n it server ∧
        published (_on_connected_controller n2) =
          published (_on_connected_controller n))).
Proof.
  split; [done|]. split; [done|]. split; [|split].
  - intros Hc required. by apply rpc_disconnected.
  - intros Hc own required. by apply rpc_connected.
  - intros it server sid Ht Hcl. simpl. rewrite Ht. split.
    + eexists. split; [done|]. unfold resume_version_ok. simpl. by rewrite Hcl.
    + eexists. split; [done|]. split; [done|].
      unfold except_handler, end_of_iteration, next_server. simpl.
      destruct (running n); [|done].
      by destruct (cycle_next (default_servers n) it).
Qed.

(** C1 (as amended): in every reachable state a push for a method other than
    the two topics finds no entry in the routing table and makes
    [handle_request] raise [KeyError]; the call publishes nothing and leaves
    the network object as it was.  The exception goes to the session library;
    what that does with it and with the messages that follow is outside this
    module. *)
Theorem C1_unregistered_push (pool : list Server) (n : Network)
  (method : string) (args : list pyval) :
  reachable __version__ pool n →
  method ≠ "blockchain.headers.subscribe" →
  method ≠ "blockchain.address.subscribe" →
  subscription_controllers n !! method = None ∧
  (handle_request n method args).2 = Raise (KeyError method) ∧
  (handle_request n method args).1 = n.
Proof.
  intros [evs Hr] Hnh Hna. apply run_table in Hr.
  assert (Hm : subscription_controllers n !! method = None).
  { rewrite Hr. unfold init. simpl. by rewrite !lookup_insert_ne. }
  split; [done|]. by rewrite handle_request_unregistered.
Qed.

(** C5: the routing table is written at construction with exactly the two
    topics and no event ever changes it.  A push for
    ['blockchain.headers.subscribe'] returns and is published on the header
    stream: the stream holds the push's arguments after what it held, and so
    does the inbox of every consumer attached to it, while the status stream
    is as before; a push for ['blockchain.address.subscribe'] does the same
    on the status stream and leaves the header stream as before. *)
Theorem C5_routing_table (pool : list Server) (n : Network) :
  reachable __version__ pool n →
  (∀ method c,
     subscription_controllers n !! method = Some c ↔
     (method = "blockchain.headers.subscribe" ∧ c = OnHeader) ∨
     (method = "blockchain.address.subscribe" ∧ c = OnStatus)) ∧
  (∀ args,
     (handle_request n "blockchain.headers.subscribe" args).2 = Return () ∧
     published (_on_header_controller
                  (handle_request n "blockchain.headers.subscribe" args).1) =
       published (_on_header_controller n) ++ [args] ∧
     inboxes (_on_header_controller
                (handle_request n "blockchain.headers.subscribe" args).1) =
       (λ q, q ++ [args]) <$> inboxes (_on_header_controller n) ∧
     _on_status_controller
       (handle_request n "blockchain.headers.subscribe" args).1 =
       _on_status_controller n) ∧
  (∀ args,
     (handle_request n "blockchain.address.subscribe" args).2 = Return () ∧
     published (_on_status_controller
                  (handle_request n "blockchain.address.subscribe" args).1) =
       published (_on_status_controller n) ++ [args] ∧
     inboxes (_on_status_controller
                (handle_request n "blockchain.address.subscribe" args).1) =
       (λ q, q ++ [args]) <$> inboxes (_on_status_controller n) ∧
     _on_header_controller
       (handle_request n "blockchain.address.subscribe" args).1 =
       _on_header_controller n).
Proof.
  intros [evs Hr]. apply run_table in Hr.
  assert (Hh : subscription_controllers n !! "blockchain.headers.subscribe"
               = Some OnHeader) by (by rewrite Hr).
  assert (Ha : subscription_controllers n !! "blockchain.address.subscribe"
               = Some OnStatus) by (by rewrite Hr).
  split; [|split; intros args; unfold handle_request;
           [rewrite Hh | rewrite Ha]; done].
  intros method c. rewrite Hr. unfold init; simpl.
  rewrite lookup_insert. case_decide as E1.
  - subst method. split; [intros [= <-]; by left|].
    intros [[_ ->]|[? _]]; done.
  - rewrite lookup_insert. case_decide as E2.
    + subst method. split; [intros [= <-]; by right|].
      intros [[? _]|[_ ->]]; done.
    + rewrite lookup_empty. split; [done|]. intros [[? _]|[? _]]; done.
Qed.

End Properties.

(** ** The properties on the sample data *)

Lemma net_connected_reachable : reachable version_0_5_7 pool_ab net_connected.
Proof. exists [Start; ConnectOk; VersionOk]. vm_compute. reflexivity. Defined.

Lemma net_connecting_reachable : reachable version_0_5_7 pool_ab net_connecting.
Proof. exists [Start]. vm_compute. reflexivity. Defined.

Lemma net_versioning_reachable : reachable version_0_5_7 pool_ab net_versioning.
Proof. exists [Start; ConnectOk]. vm_compute. reflexivity. Defined.

(** C1, the claim as worded fails: a push for a method outside the table
    makes [handle_request] raise instead of returning. *)
Lemma C1_unregistered_push_raises :
  subscription_controllers net_idle !! "blockchain.numblocks.subscribe" = None ∧
  (handle_request net_idle "blockchain.numblocks.subscribe" [PyInt 7]).2 =
    Raise (KeyError "blockchain.numblocks.subscribe") ∧
  (handle_request net_idle "blockchain.numblocks.subscribe" [PyInt 7]).2 ≠
    Return ().
Proof. split; [|split]; [vm_compute; reflexivity..|vm_compute; discriminate]. Qed.

Lemma C1_unregistered_push_witness :
  subscription_controllers net_connected !! "blockchain.numblocks.subscribe" = None ∧
  (handle_request net_connected "blockchain.numblocks.subscribe" [PyInt 7]).2 =
    Raise (KeyError "blockchain.numblocks.subscribe") ∧
  (handle_request net_connected "blockchain.numblocks.subscribe" [PyInt 7]).1 =
    net_connected.
Proof.
  apply (C1_unregistered_push version_0_5_7 pool_ab net_connected
           "blockchain.numblocks.subscribe" [PyInt 7] net_connected_reachable).
  - discriminate.
  - discriminate.
Defined.

Lemma C2_facade_fail_fast_witness :
  facade net_connecting (CallGetHistory (PyStr "bQw5address")) =
    (net_connecting, Raise not_available) ∧
  ∃ sid method args,
    active net_connected sid ∧
    facade net_connected (CallGetHistory (PyStr "bQw5address")) =
      send_request net_connected sid method args.
Proof.
  split.
  - apply (proj1 (C2_facade_fail_fast net_connecting
                    (CallGetHistory (PyStr "bQw5address")))).
    vm_compute. reflexivity.
  - apply (proj2 (C2_facade_fail_fast net_connected
                    (CallGetHistory (PyStr "bQw5address")))).
    vm_compute. reflexivity.
Defined.

(** C3, the claim as worded fails: with an empty pool [cycle] gives nothing
    and [start()] returns at once, the running flag still set and no [stop()]
    called. *)
Lemma C3_empty_pool_loop_returns :
  ∃ n, run version_0_5_7 (init []) [Start] = Some n ∧
    loop_terminated n ∧ running n = true ∧ Stop ∉ [Start].
Proof.
  eexists. split; [vm_compute; reflexivity|]. split; [reflexivity|].
  split; [reflexivity|]. intros H. apply list_elem_of_singleton in H. discriminate.
Qed.

Lemma C3_failover_loop_cycles_witness :
  ∃ n, run version_0_5_7 (init pool_ab)
         (Start :: attempts_events [ConnectError; VersionError; Disconnected] 0)
       = Some n ∧
    running n = true ∧ ¬ loop_terminated n ∧
    attempted n = cycle_take pool_ab 4 ∧
    ((length pool_ab ≤ 4)%nat → ∀ server, server ∈ pool_ab → server ∈ attempted n).
Proof.
  assert (H : pool_ab ≠ []) by discriminate.
  apply (proj1 (C3_failover_loop_cycles version_0_5_7 pool_ab H)
           [ConnectError; VersionError; Disconnected]).
Defined.

Lemma C5_routing_table_witness :
  (handle_request net_connected "blockchain.headers.subscribe" [PyStr "header"]).2 =
    Return () ∧
  published (_on_header_controller
               (handle_request net_connected "blockchain.headers.subscribe"
                  [PyStr "header"]).1) =
    published (_on_header_controller net_connected) ++ [[PyStr "header"]] ∧
  inboxes (_on_header_controller
             (handle_request net_connected "blockchain.headers.subscribe"
                [PyStr "header"]).1) =
    (λ q, q ++ [[PyStr "header"]]) <$> inboxes (_on_header_controller net_connected) ∧
  _on_status_controller
    (handle_request net_connected "blockchain.headers.subscribe"
       [PyStr "header"]).1 =
    _on_status_controller net_connected.
Proof.
  apply (proj1 (proj2 (C5_routing_table version_0_5_7 pool_ab net_connected
                         net_connected_reachable))).
Defined.

(** C6, the claim as worded fails: when [stop()] was called while the
    connection was being made, a failed version check ends the loop instead of
    moving on to the next server. *)
Lemma C6_version_failure_after_stop_ends_loop :
  ∃ n n', run version_0_5_7 (init pool_ab) [Start; Stop; ConnectOk] = Some n ∧
    task n = AwaitVersion 1 ("a.example", 50001%Z) 0 ∧
    step version_0_5_7 n VersionFailed = Some n' ∧
    loop_terminated n' ∧
    ∀ it server sid, task n' ≠ AwaitConnect it server sid.
Proof.
  eexists _, _. split; [vm_compute; reflexivity|]. split; [reflexivity|].
  split; [vm_compute; reflexivity|]. split; [reflexivity|]. discriminate.
Qed.

Lemma C6_version_check_witness :
  ∃ n', step version_0_5_7 net_versioning VersionFailed = Some n' ∧
    published (_on_connected_controller n') =
      published (_on_connected_controller net_versioning) ∧
    if running net_versioning then
      ∃ server', cycle_next pool_ab 1 = Some server' ∧
        task n' = AwaitConnect 2 server' 1 ∧
        client n' = Some 1 ∧
        heap n' = heap net_versioning ++ [new_session server']
    else loop_terminated n'.
Proof.
  apply (proj2 (C6_version_check_is_part_of_attempt version_0_5_7 pool_ab
                  net_versioning 1 ("a.example", 50001%Z) 0
                  net_versioning_reachable)).
  reflexivity.
Defined.

Lemma net_third_attempt_reachable :
  reachable version_0_5_7 pool_ab net_third_attempt.
Proof.
  exists [Start; ConnectOk; VersionFailed; ConnectOk; VersionOk; ConnectionLost 1].
  vm_compute. reflexivity.
Defined.

(** C7, the claim as worded fails: after a failed version check the loop
    goes on to the next server without closing the session, so two sessions
    have their transport up at once. *)
Lemma C7_two_sessions_with_live_transport :
  ∃ n, run version_0_5_7 (init pool_ab)
         [Start; ConnectOk; VersionFailed; ConnectOk] = Some n ∧
    live n 0 ∧ live n 1 ∧ phase <$> heap n = [Open; Open] ∧ client n = Some 1.
Proof.
  eexists. split; [vm_compute; reflexivity|].
  split; [eexists; split; reflexivity|].
  split; [eexists; split; reflexivity|].
  split; reflexivity.
Qed.

Lemma C7_one_session_in_use_witness :
  client net_third_attempt = newest (heap net_third_attempt) ∧
  (client net_third_attempt = Some 2 ∧ length (heap net_third_attempt) = 3 ∧
   heap net_third_attempt !! 2 = Some (new_session ("a.example", 50001%Z))) ∧
  phase <$> heap net_third_attempt = [Open; Lost; Fresh].
Proof.
  split; [|split; [|reflexivity]].
  - apply (C7_one_session_in_use_never_reused version_0_5_7 pool_ab
             net_third_attempt net_third_attempt_reachable).
  - apply (proj2 (proj2 (proj2 (proj2
             (C7_one_session_in_use_never_reused version_0_5_7 pool_ab
                net_third_attempt net_third_attempt_reachable))))
             3 ("a.example", 50001%Z) 2).
    reflexivity.
Defined.

(** C8, the claim as worded fails: [subscribe_headers] takes no argument from
    its caller, yet what it sends carries one, the constant [True]. *)
Lemma C8_subscribe_headers_sends_true :
  is_connected net_connected = true ∧
  positional_args CallSubscribeHeaders = [] ∧
  facade net_connected CallSubscribeHeaders =
    send_request net_connected 0 "blockchain.headers.subscribe" [PyBool true] ∧
  facade net_connected CallSubscribeHeaders ≠
    send_request net_connected 0 (wire_method CallSubscribeHeaders)
      (positional_args CallSubscribeHeaders).
Proof.
  split; [vm_compute; reflexivity|]. split; [reflexivity|].
  split; [vm_compute; reflexivity|].
  intros H. apply (f_equal snd) in H. vm_compute in H. discriminate.
Qed.

Lemma C8_facade_wire_calls_witness :
  ∃ sid, active net_connected sid ∧
    facade net_connected (CallGetMerkle (PyStr "txhash") (PyInt 120)) =
      send_request net_connected sid
        (wire_method (CallGetMerkle (PyStr "txhash") (PyInt 120)))
        (wire_args (CallGetMerkle (PyStr "txhash") (PyInt 120))) ∧
    (CallGetMerkle (PyStr "txhash") (PyInt 120) ≠ CallSubscribeHeaders →
     wire_args (CallGetMerkle (PyStr "txhash") (PyInt 120)) =
       positional_args (CallGetMerkle (PyStr "txhash") (PyInt 120))) ∧
    (CallGetMerkle (PyStr "txhash") (PyInt 120) = CallSubscribeHeaders →
     wire_args (CallGetMerkle (PyStr "txhash") (PyInt 120)) = [PyBool true]).
Proof.
  apply (C8_facade_wire_calls net_connected
           (CallGetMerkle (PyStr "txhash") (PyInt 120))).
  vm_compute. reflexivity.
Defined.

Lemma C9_server_version_request_witness :
  ensure_server_version version_0_5_7 net_connecting None =
    (net_connecting, Raise not_available) ∧
  ∃ sid, active net_versioning sid ∧
    ensure_server_version "0.0.1" net_versioning (Some "9.9") =
      send_request net_versioning sid "server.version" [PyStr "0.0.1"; PyStr "9.9"].
Proof.
  split.
  - apply (proj1 (proj2 (proj2 (C9_server_version_request version_0_5_7
                                  net_connecting)))).
    vm_compute. reflexivity.
  - apply (proj1 (proj2 (proj2 (proj2 (C9_server_version_request version_0_5_7
                                         net_versioning))))).
    vm_compute. reflexivity.
Defined.

Lemma C10_get_headers_default_count_witness :
  ∃ sid, active net_connected sid ∧
    get_headers net_connected (PyInt 500000) None =
      send_request net_connected sid "blockchain.block.headers"
        [PyInt 500000; PyInt 10000].
Proof.
  apply (C10_get_headers_default_count net_connected (PyInt 500000)).
  vm_compute. reflexivity.
Defined.

(** * Further properties of the module *)

Section Lifecycle.

Context (__version__ : string).

(** Unfolds the coroutine down to the record updates. *)
Ltac unfold_steps :=
  unfold resume_connect_ok, resume_version_ok, connection_lost, stop, start,
    except_handler, end_of_iteration, next_server, listen, facade,
    ensure_server_version, broadcast, get_history, get_transaction, get_merkle,
    get_headers, subscribe_headers, subscribe_address, rpc, send_request,
    handle_request, controller_add, update_session in *.

(** ** The connected notification *)

Lemma step_on_connected (n n' : Network) (e : Event) :
  step __version__ n e = Some n' →
  published (_on_connected_controller n') =
    published (_on_connected_controller n) ++
      (if is_version_ok e then [true] else []).
Proof.
  destruct e; simpl; unfold_steps; intros H;
    repeat case_match; simplify_eq; simpl; by rewrite ?app_nil_r.
Qed.

Lemma run_on_connected (evs : list Event) (n n' : Network) :
  run __version__ n evs = Some n' →
  published (_on_connected_controller n') =
    published (_on_connected_controller n) ++ replicate (version_replies evs) true.
Proof.
  revert n. induction evs as [|e evs IH]; intros n; simpl.
  - intros [= <-]. by rewrite app_nil_r.
  - destruct (step __version__ n e) as [n1|] eqn:He; [|done]. intros Hr.
    rewrite (IH _ Hr), (step_on_connected _ _ _ He), <- app_assoc. f_equal.
    unfold version_replies. rewrite filter_cons.
    destruct (is_version_ok e);
      [rewrite decide_True by done|rewrite decide_False by done]; done.
Qed.

(** X1: [on_connected] fires once for every answered version check and at no
    other time: after any events, what was published on it is one [True] per
    [VersionOk]. *)
Theorem on_connected_counts_version_replies (pool : list Server)
  (evs : list Event) (n : Network) :
  run __version__ (init pool) evs = Some n →
  published (_on_connected_controller n) = replicate (version_replies evs) true.
Proof. intros Hr. by rewrite (run_on_connected _ _ _ Hr). Qed.

(** ** Sessions from creation to loss *)

Lemma sessions_evolve_refl (pool : list Server) (h : list ClientSession) :
  sessions_evolve __version__ pool h h.
Proof.
  split.
  - intros sid s Hs. by exists s.
  - intros sid s' Hle Hs. apply lookup_lt_Some in Hs. lia.
Qed.

Lemma sessions_evolve_trans (pool : list Server) (h1 h2 h3 : list ClientSession) :
  sessions_evolve __version__ pool h1 h2 →
  sessions_evolve __version__ pool h2 h3 →
  sessions_evolve __version__ pool h1 h3.
Proof.
  intros [Ho12 Hn12] [Ho23 Hn23]. split.
  - intros sid s Hs. destruct (Ho12 sid s Hs) as (s2 & Hs2 & Hr2).
    destruct (Ho23 sid s2 Hs2) as (s3 & Hs3 & Hr3).
    exists s3. split; [done|]. by etrans.
  - intros sid s3 Hle Hs3. destruct (h2 !! sid) as [s2|] eqn:Hs2.
    + destruct (Hn12 sid s2 Hle Hs2) as (server & s0 & Hin & Hr & ->).
      destruct (Ho23 sid s0 Hs2) as (s3' & Hs3' & Hr3).
      rewrite Hs3 in Hs3'. injection Hs3' as <-.
      exists server, s3. split; [done|]. split; [by etrans|done].
    + apply lookup_ge_None in Hs2. by apply (Hn23 sid s3).
Qed.

Lemma sessions_evolve_alter (pool : list Server) (h : list ClientSession)
  (sid : nat) (s : ClientSession) (f : ClientSession → ClientSession) :
  h !! sid = Some s → session_step __version__ s (f s) →
  sessions_evolve __version__ pool h (alter f sid h).
Proof.
  intros Hs Hstep. split.
  - intros sid' s' Hs'. destruct (decide (sid = sid')) as [<-|Hne].
    + exists (f s). rewrite list_lookup_alter_eq, Hs. split; [done|].
      rewrite Hs in Hs'. injection Hs' as <-. by apply rtc_once.
    + exists s'. by rewrite list_lookup_alter_ne.
  - intros sid' s' Hle Hs'. apply lookup_lt_Some in Hs'.
    rewrite length_alter in Hs'. lia.
Qed.

Lemma sessions_evolve_snoc (pool : list Server) (h : list ClientSession)
  (server : Server) :
  server ∈ pool →
  sessions_evolve __version__ pool h (h ++ [new_session server]).
Proof.
  intros Hin. split.
  - intros sid s Hs. exists s. split; [by apply lookup_app_l_Some|done].
  - intros sid s' Hle Hs'. apply lookup_app_Some in Hs' as [Hs'|[_ Hs']].
    + apply lookup_lt_Some in Hs'. lia.
    + apply list_lookup_singleton_Some in Hs' as [_ <-].
      by exists server, (new_session server).
Qed.

Lemma cycle_next_in_pool (pool : list Server) (it : nat) (server : Server) :
  cycle_next pool it = Some server → server ∈ pool.
Proof.
  unfold cycle_next. destruct pool; [done|]. apply list_elem_of_lookup_2.
Qed.

Lemma sessions_evolve_end_of_iteration (pool : list Server) (n : Network)
  (it : nat) :
  default_servers n = pool →
  sessions_evolve __version__ pool (heap n) (heap (end_of_iteration n it)).
Proof.
  intros Hp. unfold end_of_iteration, next_server.
  destruct (running n); [|apply sessions_evolve_refl].
  destruct (cycle_next (default_servers n) it) as [server|] eqn:Hc;
    [|apply sessions_evolve_refl].
  simpl. apply sessions_evolve_snoc. rewrite Hp in Hc.
  by eapply cycle_next_in_pool.
Qed.

Lemma sessions_evolve_except_handler (pool : list Server) (n : Network)
  (it : nat) (server : Server) :
  default_servers n = pool →
  sessions_evolve __version__ pool (heap n) (heap (except_handler n it server)).
Proof. intros Hp. by apply (sessions_evolve_end_of_iteration pool (add_log _ n)). Qed.

Lemma step_sessions_evolve (pool : list Server) (n n' : Network) (e : Event) :
  wf pool n → step __version__ n e = Some n' →
  sessions_evolve __version__ pool (heap n) (heap n').
Proof.
  intros [(Hp & Hcl & Hfired) Hf] He. destruct e; simpl in He.
  - assert (n' = start n) as -> by (destruct (task n); congruence).
    apply (sessions_evolve_end_of_iteration pool (set_running true n) 0 Hp).
  - injection He as <-. unfold stop.
    destruct (is_connected (set_running false n)) eqn:Hc;
      [|apply sessions_evolve_refl].
    apply is_connected_Some in Hc as (sid & s & Hc & Hh & Hph).
    rewrite Hc. simpl. apply (sessions_evolve_alter _ _ _ s); [done|].
    by constructor.
  - destruct (task n) eqn:Ht; try done. injection He as <-.
    rewrite (resume_connect_ok_eq __version__ pool) by done.
    unfold frame_ok in Hf. rewrite Ht in Hf. destruct Hf as (_ & Hh & _).
    simpl. rewrite list_alter_alter_eq.
    apply (sessions_evolve_alter _ _ _ (new_session server)); [done|].
    by apply session_connect.
  - destruct (task n) eqn:Ht; try done. injection He as <-.
    by apply sessions_evolve_except_handler.
  - destruct (task n) eqn:Ht; try done. injection He as <-.
    unfold resume_version_ok. simpl. destruct (client n); [apply sessions_evolve_refl|].
    by apply (sessions_evolve_except_handler pool (set_on_connected _ (add_log _ n))).
  - destruct (task n) eqn:Ht; try done. injection He as <-.
    by apply sessions_evolve_except_handler.
  - unfold connection_lost in He.
    destruct (heap n !! sid) as [s|] eqn:Hh; [|done].
    case_bool_decide as Hph; [|done]. injection He as <-.
    eapply sessions_evolve_trans.
    { apply (sessions_evolve_alter pool _ sid s session_connection_lost Hh).
      by constructor. }
    simpl. destruct (task n); try apply sessions_evolve_refl;
      case_decide; try apply sessions_evolve_refl.
    + by apply (sessions_evolve_except_handler pool
                  (update_session sid session_connection_lost n)).
    + by apply (sessions_evolve_end_of_iteration pool
                  (update_session sid session_connection_lost n)).
  - injection He as <-. unfold handle_request.
    destruct (subscription_controllers n !! method) as [[]|];
      apply sessions_evolve_refl.
  - injection He as <-. destruct s; apply sessions_evolve_refl.
  - injection He as <-. rewrite facade_rpc. unfold rpc.
    destruct (is_connected n) eqn:Hc; [|apply sessions_evolve_refl].
    apply is_connected_Some in Hc as (sid & s & Hc & Hh & Hph).
    rewrite Hc. simpl. apply (sessions_evolve_alter _ _ _ s); [done|].
    by constructor.
Qed.

Lemma run_sessions_evolve (pool : list Server) (evs : list Event)
  (n n' : Network) :
  wf pool n → run __version__ n evs = Some n' →
  sessions_evolve __version__ pool (heap n) (heap n').
Proof.
  revert n. induction evs as [|e evs IH]; intros n Hwf; simpl.
  - intros [= <-]. apply sessions_evolve_refl.
  - destruct (step __version__ n e) as [n1|] eqn:He; [|done]. intros Hr.
    eapply sessions_evolve_trans; [by eapply step_sessions_evolve|].
    apply IH; [by eapply step_wf|done].
Qed.


Lemma reachable_session_life (pool : list Server) (n : Network) (sid : nat)
  (s : ClientSession) :
  reachable __version__ pool n → heap n !! sid = Some s →
  ∃ server, server ∈ pool ∧
    rtc (session_step __version__) (new_session server) s.
Proof.
  intros [evs Hr] Hs.
  destruct (run_sessions_evolve pool evs (init pool) n (wf_init pool) Hr)
    as [_ Hnew].
  destruct (Hnew sid s) as (server & s0 & Hin & Hrtc & ->);
    [simpl; lia|done|]. by exists server.
Qed.

Lemma session_invariant (P : ClientSession → Prop) (pool : list Server)
  (n : Network) (sid : nat) (s : ClientSession) :
  (∀ server, server ∈ pool → P (new_session server)) →
  (∀ s1 s2, P s1 → session_step __version__ s1 s2 → P s2) →
  reachable __version__ pool n → heap n !! sid = Some s → P s.
Proof.
  intros Hnew Hstep Hr Hs.
  destruct (reachable_session_life pool n sid s Hr Hs) as (server & Hin & Hrtc).
  clear Hs. revert s Hrtc. apply rtc_ind_r; [by apply Hnew|].
  intros y z _ Hyz Hy. by eapply Hstep.
Qed.

Lemma session_server_in_pool (pool : list Server) (n : Network) (sid : nat)
  (s : ClientSession) :
  reachable __version__ pool n → heap n !! sid = Some s → server_of s ∈ pool.
Proof.
  apply (session_invariant (λ s, server_of s ∈ pool) pool n sid s); [done|].
  intros s1 s2 H1 Hstep. by destruct Hstep.
Qed.

(** X2: every session the loop ever creates is bound to a server of the
    configured pool. *)
Theorem sessions_bound_to_pool (pool : list Server) (n : Network) (sid : nat)
  (s : ClientSession) :
  reachable __version__ pool n → heap n !! sid = Some s → server_of s ∈ pool.
Proof. apply session_server_in_pool. Qed.

Lemma session_disconnect_published (pool : list Server) (n : Network)
  (sid : nat) (s : ClientSession) :
  reachable __version__ pool n → heap n !! sid = Some s →
  published (_on_disconnect_controller s) =
    if decide (phase s = Lost) then [true] else [].
Proof.
  apply (session_invariant
           (λ s, published (_on_disconnect_controller s) =
                 if decide (phase s = Lost) then [true] else []) pool n sid s).
  - done.
  - intros s1 s2 H1 Hstep. destruct Hstep as [s1 Hp|s1 m a Hp|s1 Hp|s1 Hp];
      simpl; rewrite H1.
    + by rewrite Hp.
    + done.
    + by rewrite Hp.
    + by destruct Hp as [-> | ->].
Qed.

(** X4: the disconnect notification of a session is one-shot: nothing is
    published on it while the session has not lost its transport, and exactly
    one [True] once it has. *)
Theorem disconnect_fires_once (pool : list Server) (n : Network) (sid : nat)
  (s : ClientSession) :
  reachable __version__ pool n → heap n !! sid = Some s →
  published (_on_disconnect_controller s) =
    if decide (phase s = Lost) then [true] else [].
Proof. apply session_disconnect_published. Qed.

Lemma session_step_monotone (s1 s2 : ClientSession) :
  session_step __version__ s1 s2 →
  server_of s2 = server_of s1 ∧
  (phase_rank (phase s1) ≤ phase_rank (phase s2))%nat ∧
  requests s1 `prefix_of` requests s2 ∧
  published (_on_disconnect_controller s1) `prefix_of`
    published (_on_disconnect_controller s2).
Proof.
  intros Hstep. destruct Hstep as [s1 Hp|s1 m a Hp|s1 Hp|s1 Hp]; simpl;
    (split; [done|]); (split; [|split; try done; try by apply prefix_app_r]).
  - rewrite Hp. simpl. lia.
  - lia.
  - rewrite Hp. simpl. lia.
  - destruct Hp as [-> | ->]; simpl; lia.
Qed.

(** X5: a session object only moves forward.  Over any events, it stays in
    the store at the same place, bound to the same server; its transport never
    goes back to an earlier phase (a closing or lost session is never open
    again); and its list of requests and its disconnect stream only grow at
    the end. *)
Theorem sessions_only_advance (pool : list Server) (n n' : Network)
  (evs : list Event) (sid : nat) (s : ClientSession) :
  reachable __version__ pool n → run __version__ n evs = Some n' →
  heap n !! sid = Some s →
  ∃ s', heap n' !! sid = Some s' ∧
    server_of s' = server_of s ∧
    (phase_rank (phase s) ≤ phase_rank (phase s'))%nat ∧
    requests s `prefix_of` requests s' ∧
    published (_on_disconnect_controller s) `prefix_of`
      published (_on_disconnect_controller s').
Proof.
  intros Hr Hrun Hs.
  destruct (run_sessions_evolve pool evs n n' (reachable_wf _ _ _ Hr) Hrun)
    as [Hold _].
  destruct (Hold sid s Hs) as (s' & Hs' & Hrtc). exists s'. split; [done|].
  clear Hs Hs'. induction Hrtc as [|s1 s2 s3 H12 _ IH]; [done|].
  destruct (session_step_monotone s1 s2 H12) as (Hsrv & Hph & Hrq & Hd).
  destruct IH as (Hsrv' & Hph' & Hrq' & Hd').
  split; [congruence|]. split; [lia|]. split; by etrans.
Qed.


(** ** Facade calls in a row *)

Lemma update_session_twice (n : Network) (sid : nat)
  (f g : ClientSession → ClientSession) :
  update_session sid f (update_session sid g n) = update_session sid (f ∘ g) n.
Proof. unfold update_session. simpl. by rewrite list_alter_alter_eq. Qed.

Lemma update_session_ext (n : Network) (sid : nat)
  (f g : ClientSession → ClientSession) :
  (∀ s, f s = g s) → update_session sid f n = update_session sid g n.
Proof.
  intros Hfg. unfold update_session. f_equal. by apply list_alter_ext.
Qed.

Lemma update_session_id (n : Network) (sid : nat)
  (f : ClientSession → ClientSession) :
  (∀ s, f s = s) → update_session sid f n = n.
Proof.
  intros Hf. unfold update_session. rewrite list_alter_id by done.
  by destruct n.
Qed.

(** X6: facade calls made in a row on a connected network all go through, to
    the same session, and are recorded on it in the order of the calls after
    what was there; nothing else in the network object changes.  Made on a
    network that is not connected they leave no trace at all. *)
Theorem facade_calls_in_order (n : Network) (calls : list Call) :
  (∀ sid s, client n = Some sid → heap n !! sid = Some s → phase s = Open →
     run __version__ n (Request <$> calls) =
       Some (update_session sid (add_requests (wire_request <$> calls)) n)) ∧
  (is_connected n = false → run __version__ n (Request <$> calls) = Some n).
Proof.
  split.
  - revert n. induction calls as [|c calls IH]; intros n sid s Hcl Hh Hp; simpl.
    + f_equal. symmetry. apply update_session_id. intros [? ? ? ?].
      unfold add_requests. simpl. by rewrite app_nil_r.
    + rewrite facade_rpc. unfold rpc, is_connected, is_closing.
      rewrite Hcl, Hh, Hp. simpl.
      rewrite (IH _ sid (record_request (wire_method c) (wire_args c) s));
        [|done|by simpl; rewrite list_lookup_alter_eq, Hh|done].
      f_equal. rewrite update_session_twice. apply update_session_ext.
      intros s0. unfold add_requests. simpl. by rewrite <- app_assoc.
  - intros Hc. induction calls as [|c calls IH]; simpl; [done|].
    rewrite facade_rpc, (rpc_disconnected _ _ _ Hc). simpl. apply IH.
Qed.

(** ** Pushes in a row *)

Lemma topic_args_cons (topic method : string) (args : list pyval)
  (msgs : list (string * list pyval)) :
  topic_args topic ((method, args) :: msgs) =
    if decide (method = topic) then args :: topic_args topic msgs
    else topic_args topic msgs.
Proof. unfold topic_args. rewrite filter_cons. simpl. by case_decide. Qed.

Lemma reachable_table (pool : list Server) (n : Network) :
  reachable __version__ pool n →
  subscription_controllers n = subscription_controllers (init pool).
Proof. intros [evs Hr]. by apply run_table in Hr. Qed.

Lemma handle_requests_routed (msgs : list (string * list pyval)) (n : Network) :
  subscription_controllers n !! "blockchain.headers.subscribe" = Some OnHeader →
  subscription_controllers n !! "blockchain.address.subscribe" = Some OnStatus →
  Forall routed msgs →
  handle_requests n msgs =
    (set_on_status
       (mkStream
          (published (_on_status_controller n) ++
             topic_args "blockchain.address.subscribe" msgs)
          ((λ q, q ++ topic_args "blockchain.address.subscribe" msgs) <$>
             inboxes (_on_status_controller n)))
       (set_on_header
          (mkStream
             (published (_on_header_controller n) ++
                topic_args "blockchain.headers.subscribe" msgs)
             ((λ q, q ++ topic_args "blockchain.headers.subscribe" msgs) <$>
                inboxes (_on_header_controller n)))
          n),
     Return ()).
Proof.
  intros Hh Ha Hall. revert n Hh Ha.
  induction Hall as [|[method args] msgs Hm _ IH]; intros n Hh Ha.
  - simpl. f_equal. destruct n as [? ? ? ? [ph ih] [ps ist] ? ? ? ?].
    unfold set_on_status, set_on_header, topic_args. simpl.
    rewrite !app_nil_r. f_equal; f_equal; symmetry;
      (etrans; [|apply list_fmap_id]); apply list_fmap_ext;
      intros; simpl; by rewrite app_nil_r.
  - simpl. rewrite !topic_args_cons. unfold handle_request.
    destruct Hm as [Hm|Hm]; simpl in Hm; subst method.
    + rewrite Hh. simpl. rewrite IH by done.
      f_equal. destruct n as [? ? ? ? [ph ih] [ps ist] ? ? ? ?].
      unfold set_on_status, set_on_header, sc_add. simpl.
      rewrite <- app_assoc. simpl. f_equal. f_equal.
      rewrite <- list_fmap_compose. apply list_fmap_ext.
      intros i q _. simpl. by rewrite <- app_assoc.
    + rewrite Ha. simpl. rewrite IH by done.
      f_equal. destruct n as [? ? ? ? [ph ih] [ps ist] ? ? ? ?].
      unfold set_on_status, set_on_header, sc_add. simpl.
      rewrite <- app_assoc. simpl. f_equal. f_equal.
      rewrite <- list_fmap_compose. apply list_fmap_ext.
      intros i q _. simpl. by rewrite <- app_assoc.
Qed.

(** X7: pushes for the two topics handed to [handle_request] one after the
    other all return, are sorted by topic and keep their order: after them
    each of the two streams holds the payloads of its own topic, in arrival
    order, after what it held, and so does the inbox of every consumer
    attached to it; the calls touch neither [on_connected] nor the sessions,
    [self.client], the running flag, the loop or the log. *)
Theorem pushes_keep_order_per_topic (pool : list Server) (n : Network)
  (msgs : list (string * list pyval)) :
  reachable __version__ pool n → Forall routed msgs →
  (handle_requests n msgs).2 = Return () ∧
  published (_on_header_controller (handle_requests n msgs).1) =
    published (_on_header_controller n) ++
      topic_args "blockchain.headers.subscribe" msgs ∧
  inboxes (_on_header_controller (handle_requests n msgs).1) =
    (λ q, q ++ topic_args "blockchain.headers.subscribe" msgs) <$>
      inboxes (_on_header_controller n) ∧
  published (_on_status_controller (handle_requests n msgs).1) =
    published (_on_status_controller n) ++
      topic_args "blockchain.address.subscribe" msgs ∧
  inboxes (_on_status_controller (handle_requests n msgs).1) =
    (λ q, q ++ topic_args "blockchain.address.subscribe" msgs) <$>
      inboxes (_on_status_controller n) ∧
  _on_connected_controller (handle_requests n msgs).1 =
    _on_connected_controller n ∧
  heap (handle_requests n msgs).1 = heap n ∧
  client (handle_requests n msgs).1 = client n ∧
  running (handle_requests n msgs).1 = running n ∧
  task (handle_requests n msgs).1 = task n ∧
  log (handle_requests n msgs).1 = log n.
Proof.
  intros Hr Hall. pose proof (reachable_table pool n Hr) as Ht.
  assert (Hh : subscription_controllers n !! "blockchain.headers.subscribe"
               = Some OnHeader) by (by rewrite Ht).
  assert (Ha : subscription_controllers n !! "blockchain.address.subscribe"
               = Some OnStatus) by (by rewrite Ht).
  by rewrite (handle_requests_routed msgs n Hh Ha Hall).
Qed.

(** ** What the loop logs *)

(** X8: an attempt that fails, at [create_connection], at the version check or
    because the transport drops while the version request is pending, adds one
    record to the log: the exception message with the connection string of
    the server the session was built for.  A connection that was established
    and is lost later ends the attempt without any record. *)
Theorem failures_are_logged_disconnects_are_not (pool : list Server)
  (n : Network) (it : nat) (server : Server) (sid : nat) :
  reachable __version__ pool n →
  (task n = AwaitConnect it server sid →
     ∃ n', step __version__ n ConnectFailed = Some n' ∧
       log n' = log n ++ [LogException "Connecting to %s raised an exception:"
                            (connection_string server)] ∧
       server_of <$> heap n !! sid = Some server) ∧
  (task n = AwaitVersion it server sid →
     (∃ n', step __version__ n VersionFailed = Some n' ∧
        log n' = log n ++ [LogException "Connecting to %s raised an exception:"
                             (connection_string server)]) ∧
     (∃ n', step __version__ n (ConnectionLost sid) = Some n' ∧
        log n' = log n ++ [LogException "Connecting to %s raised an exception:"
                             (connection_string server)]) ∧
     server_of <$> heap n !! sid = Some server) ∧
  (task n = AwaitDisconnect it server sid →
     ∃ n', step __version__ n (ConnectionLost sid) = Some n' ∧
       log n' = log n ∧ is_connected n' = false).
Proof.
  intros Hr. destruct (reachable_wf __version__ pool n Hr) as [(Hp & Hcl & _) Hf].
  assert (Hlog : ∀ m i srv, log (except_handler m i srv) =
            log m ++ [LogException "Connecting to %s raised an exception:"
                        (connection_string srv)]).
  { intros m i srv. unfold except_handler, end_of_iteration, next_server. simpl.
    destruct (running m); [|done]. by destruct (cycle_next _ _). }
  assert (Hlog' : ∀ m i, log (end_of_iteration m i) = log m).
  { intros m i. unfold end_of_iteration, next_server.
    destruct (running m); [|done]. by destruct (cycle_next _ _). }
  unfold frame_ok in Hf. split; [|split]; intros Ht; rewrite Ht in Hf.
  - destruct Hf as (_ & Hh & _). simpl. rewrite Ht. eexists. split; [done|].
    split; [apply Hlog|]. by rewrite Hh.
  - destruct Hf as (_ & (s & Hh & Hsrv & Hph) & _). split; [|split].
    + simpl. rewrite Ht. eexists. split; [done|]. apply Hlog.
    + simpl. unfold connection_lost. rewrite Hh.
      rewrite bool_decide_eq_true_2 by done. simpl. rewrite Ht.
      rewrite decide_True by done. eexists. split; [done|]. by rewrite Hlog.
    + by rewrite Hh, <- Hsrv.
  - destruct Hf as (Hc & (s & Hh & Hsrv & Hph) & _).
    simpl. unfold connection_lost. rewrite Hh.
    rewrite bool_decide_eq_true_2 by done. simpl. rewrite Ht.
    rewrite decide_True by done. eexists. split; [done|]. split; [by rewrite Hlog'|].
    unfold end_of_iteration, next_server. simpl.
    assert (Hdead : ∀ m, client m = Some sid →
              heap m = alter session_connection_lost sid (heap n) →
              is_connected m = false).
    { intros m Hm Hhm. unfold is_connected. rewrite Hm, Hhm.
      by rewrite list_lookup_alter_eq, Hh. }
    destruct (running n); [|by apply Hdead].
    destruct (cycle_next (default_servers n) it); [|by apply Hdead].
    unfold is_connected. simpl.
    rewrite lookup_app_r by (by rewrite length_alter).
    by rewrite length_alter, Nat.sub_diag.
Qed.

(** ** After the stop flag is cleared *)

Lemma step_stopped (n n' : Network) (e : Event) :
  running n = false → e ≠ Start → step __version__ n e = Some n' →
  running n' = false ∧ client n' = client n ∧
  length (heap n') = length (heap n).
Proof.
  intros Hr Hne. destruct e; simpl; unfold_steps; try done; intros H;
    repeat case_match; simplify_eq; simpl in *;
    rewrite ?length_alter; try done; congruence.
Qed.

(** X9: once the running flag is cleared the loop builds no further session
    and leaves [self.client] alone: whatever happens, short of a new
    [start()], the flag stays cleared, [self.client] designates the same
    session and no session is added to those that exist. *)
Theorem stopped_loop_makes_no_session (n n' : Network) (evs : list Event) :
  running n = false → Start ∉ evs → run __version__ n evs = Some n' →
  running n' = false ∧ client n' = client n ∧
  length (heap n') = length (heap n).
Proof.
  revert n. induction evs as [|e evs IH]; intros n Hr HnS; simpl.
  - by intros [= <-].
  - destruct (step __version__ n e) as [n1|] eqn:He; [|done]. intros Hrun.
    apply not_elem_of_cons in HnS as [Hne HnS].
    assert (Hne' : e ≠ Start) by congruence.
    destruct (step_stopped n n1 e Hr Hne' He) as (Hr1 & Hc1 & Hl1).
    destruct (IH n1 Hr1 HnS Hrun) as (? & ? & ?).
    split; [done|]. split; congruence.
Qed.


Lemma cycle_next_first (server : Server) (pool : list Server) :
  cycle_next (server :: pool) 0 = Some server.
Proof. unfold cycle_next. by rewrite Nat.Div0.mod_0_l. Qed.

Lemma stopping_ends_loop (pool : list Server) (sid : nat) (n n' : Network) :
  wf pool n → stopping sid n →
  step __version__ n (ConnectionLost sid) = Some n' → loop_terminated n'.
Proof.
  intros [_ Hf] (Hr & Hcl & s & Hh & Hp). simpl. unfold connection_lost.
  rewrite Hh, bool_decide_eq_true_2 by (by right). intros [= <-].
  unfold loop_terminated, frame_ok in *. simpl.
  unfold except_handler, end_of_iteration. simpl. rewrite Hr.
  destruct (task n) as [|it srv sid'|it srv sid'|it srv sid'|] eqn:Ht; simpl.
  - by rewrite Hf in Hh.
  - destruct Hf as (Hc' & Hnew & _). rewrite Hcl in Hc'. injection Hc' as <-.
    rewrite Hh in Hnew. injection Hnew as ->. by simpl in Hp.
  - destruct Hf as (Hc' & _). rewrite Hcl in Hc'. injection Hc' as <-.
    by rewrite decide_True.
  - destruct Hf as (Hc' & _). rewrite Hcl in Hc'. injection Hc' as <-.
    by rewrite decide_True.
  - done.
Qed.

(** X10: the disconnect that lets [stop()] return also ends the failover loop,
    and a [start()] after that begins anew: it sets the running flag and
    awaits [create_connection] on a new session for the first server of the
    pool, wherever in the pool the previous run had got to; the network is not
    connected until that attempt succeeds. *)
Theorem stop_then_start_begins_at_first_server (pool : list Server)
  (n : Network) (sid : nat) (evs : list Event) (n2 : Network) :
  reachable __version__ pool n → (stop n).2 = Some sid →
  Start ∉ evs → ConnectionLost sid ∉ evs →
  run __version__ (stop n).1 evs = Some n2 →
  ∃ n3 n4 server,
    step __version__ n2 (ConnectionLost sid) = Some n3 ∧ loop_terminated n3 ∧
    step __version__ n3 Start = Some n4 ∧
    pool !! 0 = Some server ∧ running n4 = true ∧
    task n4 = AwaitConnect 1 server (length (heap n3)) ∧
    client n4 = Some (length (heap n3)) ∧
    heap n4 = heap n3 ++ [new_session server] ∧
    is_connected n4 = false.
Proof.
  intros Hr Haw HnS HnL Hrun.
  assert (Hr1 : reachable __version__ pool (stop n).1)
    by (by apply (reachable_step __version__ pool n _ Stop)).
  pose proof (reachable_run __version__ pool evs _ n2 Hr1 Hrun) as Hr2.
  pose proof (reachable_wf __version__ pool n2 Hr2) as Hwf2.
  pose proof (run_stopping __version__ pool sid evs _ n2
                (reachable_wf __version__ pool _ Hr1) (stop_closes n sid Haw)
                HnS HnL Hrun) as Hk.
  destruct (stopping_resolves __version__ sid n2 Hk) as (n3 & He & _).
  pose proof (stopping_ends_loop pool sid n2 n3 Hwf2 Hk He) as Hfin.
  destruct Hk as (_ & _ & s & Hh & _).
  pose proof (session_server_in_pool pool n2 sid s Hr2 Hh) as Hin.
  destruct pool as [|server pool']; [by apply elem_of_nil in Hin|].
  destruct (step_wf __version__ _ n2 n3 _ Hwf2 He) as [(Hp3 & _) _].
  exists n3, (start n3), server. split; [done|]. split; [done|].
  split; [simpl; by rewrite Hfin|]. split; [done|].
  unfold start, next_server. simpl. rewrite Hp3, cycle_next_first. simpl.
  split; [done|]. split; [done|]. split; [done|]. split; [done|].
  unfold is_connected. simpl. by rewrite lookup_app_r, Nat.sub_diag.
Qed.

(** X11: the facade does not wait for the version check.  As soon as
    [create_connection] has returned, and before the [server.version] reply
    has come and [on_connected] has fired, [is_connected] is true and every
    facade call is sent on the new session. *)
Theorem facade_open_before_version_reply (pool : list Server) (n : Network)
  (it : nat) (server : Server) (sid : nat) :
  reachable __version__ pool n → task n = AwaitConnect it server sid →
  ∃ n1, step __version__ n ConnectOk = Some n1 ∧
    task n1 = AwaitVersion it server sid ∧
    published (_on_connected_controller n1) =
      published (_on_connected_controller n) ∧
    is_connected n1 = true ∧
    ∀ c, facade n1 c = send_request n1 sid (wire_method c) (wire_args c).
Proof.
  intros Hr Ht. pose proof (reachable_wf __version__ pool n Hr) as Hwf.
  simpl. rewrite Ht. rewrite (resume_connect_ok_eq __version__ pool) by done.
  destruct Hwf as [_ Hf]. unfold frame_ok in Hf. rewrite Ht in Hf.
  destruct Hf as (Hcl & Hh & _).
  eexists. split; [done|]. split; [done|]. split; [done|].
  assert (Hc : is_connected
                 (set_task (AwaitVersion it server sid)
                    (update_session sid
                       (record_request "server.version"
                          [PyStr __version__; PyStr "1.2"])
                       (update_session sid (set_phase Open) n))) = true).
  { unfold is_connected. simpl. by rewrite Hcl, !list_lookup_alter_eq, Hh. }
  split; [done|]. intros c. rewrite facade_rpc. unfold rpc. rewrite Hc.
  simpl. by rewrite Hcl.
Qed.

(** ** The first server that answers *)

Lemma run_app (l1 l2 : list Event) (n : Network) :
  run __version__ n (l1 ++ l2) =
    match run __version__ n l1 with
    | Some n1 => run __version__ n1 l2
    | None => None
    end.
Proof.
  revert n. induction l1 as [|e l1 IH]; intros n; simpl; [done|].
  destruct (step __version__ n e); [apply IH|done].
Qed.

Lemma version_replies_app (l1 l2 : list Event) :
  version_replies (l1 ++ l2) = version_replies l1 + version_replies l2.
Proof. unfold version_replies. by rewrite filter_app, length_app. Qed.

Lemma version_replies_failed (failures : list Attempt) (sid : nat) :
  Forall failed failures →
  version_replies (attempts_events failures sid) = 0.
Proof.
  intros Hf. revert sid. induction Hf as [|a rest Ha _ IH]; intros sid; [done|].
  simpl. rewrite version_replies_app, IH. by destruct Ha as [-> | ->].
Qed.

(** X12: with a non-empty pool, when the attempts fail one after the other and
    then a server accepts the connection and answers the version check, the
    network is connected to that server, the one the cycle gives after as many
    draws as there were failures; its session has the handshake as only
    request; and [on_connected] has fired exactly once. *)
Theorem first_answering_server_is_connected (pool : list Server)
  (failures : list Attempt) :
  pool ≠ [] → Forall failed failures →
  ∃ n server s,
    run __version__ (init pool)
      (Start :: attempts_events failures 0 ++ [ConnectOk; VersionOk]) = Some n ∧
    cycle_next pool (length failures) = Some server ∧
    client n = Some (length failures) ∧
    heap n !! length failures = Some s ∧
    server_of s = server ∧ phase s = Open ∧
    requests s = [handshake __version__] ∧
    is_connected n = true ∧
    published (_on_connected_controller n) = [true] ∧
    task n = AwaitDisconnect (S (length failures)) server (length failures).
Proof.
  intros Hne Hfail.
  destruct (next_server_at_head pool (set_running true (init pool)) 0 Hne)
    as [Hhd _]; [done..|].
  destruct (attempts_at_head __version__ pool failures _ 0 0 Hne Hhd)
    as (n1 & Hrun1 & Hhd1 & _).
  simpl in Hhd1. destruct Hhd1 as (Hp & Hr & Hcl & Hlen & server & Hcy & Ht & Hh).
  assert (Hrun : run __version__ (init pool)
                   (Start :: attempts_events failures 0 ++ [ConnectOk; VersionOk])
                 = Some (set_task
                           (AwaitDisconnect (S (length failures)) server
                              (length failures))
                           (set_on_connected
                              (sc_add true (_on_connected_controller n1))
                              (add_log
                                 (LogInfo
                                    "Successfully connected to SPV wallet server: %s")
                                 (update_session (length failures)
                                    (record_request "server.version"
                                       [PyStr __version__; PyStr "1.2"])
                                    (update_session (length failures)
                                       (set_phase Open) n1)))))).
  { change (Start :: ?l) with ([Start] ++ l). rewrite app_assoc, run_app.
    change (run __version__ (init pool) ([Start] ++ ?l)) with
      (run __version__ (start (init pool)) l).
    unfold start. rewrite Hrun1. simpl. rewrite Ht.
    rewrite (resume_connect_ok_client __version__ n1 _ _ _ _ Hcl Hh). simpl.
    unfold resume_version_ok. simpl. by rewrite Hcl. }
  eexists _, server, _. split; [exact Hrun|]. split; [done|].
  split; [done|]. simpl. rewrite !list_lookup_alter_eq, Hh. simpl.
  split; [done|]. split; [done|]. split; [done|]. split; [done|].
  split; [unfold is_connected; simpl;
          by rewrite Hcl, !list_lookup_alter_eq, Hh|].
  split; [|done].
  pose proof (run_on_connected _ _ _ Hrun) as Hpub.
  simpl in Hpub. rewrite Hpub.
  change (Start :: ?l) with ([Start] ++ l).
  rewrite !version_replies_app, version_replies_failed by done. done.
Qed.


(** ** What the loop waits for *)

(** X13: the loop never waits on a session that is already dead.  Whenever it
    awaits the version reply or the disconnect of a session, that session
    still has its transport and its disconnect notification has not fired, so
    the loss of the transport can still happen and wake the loop up. *)
Theorem loop_waits_on_live_session (pool : list Server) (n : Network)
  (it : nat) (server : Server) (sid : nat) :
  reachable __version__ pool n →
  task n = AwaitVersion it server sid ∨ task n = AwaitDisconnect it server sid →
  ∃ s, client n = Some sid ∧ heap n !! sid = Some s ∧
    (phase s = Open ∨ phase s = Closing) ∧
    published (_on_disconnect_controller s) = [] ∧
    is_Some (step __version__ n (ConnectionLost sid)).
Proof.
  intros Hr Ht. destruct (reachable_wf __version__ pool n Hr) as [_ Hf].
  unfold frame_ok in Hf.
  assert (Hx : client n = Some sid ∧
               ∃ s, heap n !! sid = Some s ∧ server_of s = server ∧
                    (phase s = Open ∨ phase s = Closing)).
  { destruct Ht as [Ht|Ht]; rewrite Ht in Hf; by destruct Hf as (? & ? & _). }
  destruct Hx as (Hcl & s & Hh & _ & Hp). exists s.
  split; [done|]. split; [done|]. split; [done|]. split.
  - rewrite (session_disconnect_published pool n sid s Hr Hh).
    by destruct Hp as [-> | ->].
  - simpl. unfold connection_lost. rewrite Hh.
    by rewrite bool_decide_eq_true_2.
Qed.

Lemma reachable_ind (pool : list Server) (P : Network → Prop) :
  P (init pool) →
  (∀ n e n', reachable __version__ pool n → P n →
             step __version__ n e = Some n' → P n') →
  ∀ n, reachable __version__ pool n → P n.
Proof.
  intros Hinit Hstep n [evs Hr]. revert n Hr.
  induction evs as [|e evs IH] using rev_ind; intros n.
  - by intros [= <-].
  - rewrite run_app.
    destruct (run __version__ (init pool) evs) as [n0|] eqn:Hr0; [|done].
    simpl. destruct (step __version__ n0 e) as [n1|] eqn:He; [|done].
    intros [= <-]. apply (Hstep n0 e n1); [by exists evs|by apply IH|done].
Qed.

Lemma no_closing_client_same (n n' : Network) :
  heap n' = heap n → client n' = client n → running n' = running n →
  no_closing_client n → no_closing_client n'.
Proof. unfold no_closing_client. by intros -> -> ->. Qed.

Lemma no_closing_client_next_server (n : Network) (it : nat) :
  no_closing_client n → no_closing_client (next_server n it).
Proof.
  intros Hq. unfold next_server.
  destruct (cycle_next (default_servers n) it) as [server|]; [|done].
  intros _ sid s. simpl. intros [= <-].
  rewrite lookup_app_r, Nat.sub_diag by done. by intros [= <-].
Qed.

Lemma no_closing_client_end_of_iteration (n : Network) (it : nat) :
  no_closing_client n → no_closing_client (end_of_iteration n it).
Proof.
  intros Hq. unfold end_of_iteration. destruct (running n) eqn:Hr.
  - by apply no_closing_client_next_server.
  - intros Hr'. simpl in Hr'. congruence.
Qed.

Lemma no_closing_client_update (n : Network) (sid : nat)
  (f : ClientSession → ClientSession) :
  (∀ s, phase (f s) = Closing → phase s = Closing) →
  no_closing_client n → no_closing_client (update_session sid f n).
Proof.
  intros Hf Hq Hr sid' s'. simpl. intros Hcl Hh.
  destruct (decide (sid = sid')) as [<-|Hne].
  - rewrite list_lookup_alter_eq in Hh.
    destruct (heap n !! sid) as [s|] eqn:Hs; [|done]. simpl in Hh.
    injection Hh as <-. intros Hc. by apply (Hq Hr sid s Hcl Hs), Hf.
  - rewrite list_lookup_alter_ne in Hh by done. by apply (Hq Hr sid' s').
Qed.

Lemma reachable_no_closing_client (pool : list Server) (n : Network) :
  reachable __version__ pool n → no_closing_client n.
Proof.
  apply reachable_ind; [done|]. clear n. intros n e n' Hr Hq He.
  pose proof (reachable_wf __version__ pool n Hr) as Hwf.
  destruct e; simpl in He.
  - assert (n' = start n) as -> by (destruct (task n); congruence).
    unfold start, next_server. simpl.
    destruct (cycle_next (default_servers n) 0) as [server|] eqn:Hc.
    + intros _ sid s. simpl. intros [= <-].
      rewrite lookup_app_r, Nat.sub_diag by done. by intros [= <-].
    + intros _ sid s. simpl. intros _ Hh.
      pose proof (session_server_in_pool pool n sid s Hr Hh) as Hin.
      destruct Hwf as [(Hp & _) _]. rewrite Hp in Hc.
      destruct pool as [|x pool']; [by apply elem_of_nil in Hin|].
      by rewrite cycle_next_first in Hc.
  - injection He as <-. intros Hrun. unfold stop in Hrun.
    destruct (is_connected _); [destruct (client _)|]; done.
  - destruct (task n) eqn:Ht; try done. injection He as <-.
    rewrite (resume_connect_ok_eq __version__ pool) by done.
    apply (no_closing_client_same
             (update_session sid
                (record_request "server.version" [PyStr __version__; PyStr "1.2"])
                (update_session sid (set_phase Open) n))); [done..|].
    apply no_closing_client_update; [done|].
    apply no_closing_client_update; [done|done].
  - destruct (task n) eqn:Ht; try done. injection He as <-.
    by apply (no_closing_client_end_of_iteration (add_log _ n)).
  - destruct (task n) eqn:Ht; try done. injection He as <-.
    unfold resume_version_ok. simpl. destruct (client n) eqn:Hcl.
    + by apply (no_closing_client_same n).
    + apply (no_closing_client_end_of_iteration (add_log _ (set_on_connected _ (add_log _ n)))).
      by apply (no_closing_client_same n).
  - destruct (task n) eqn:Ht; try done. injection He as <-.
    by apply (no_closing_client_end_of_iteration (add_log _ n)).
  - unfold connection_lost in He.
    destruct (heap n !! sid) as [s|] eqn:Hh; [|done].
    case_bool_decide; [|done]. injection He as <-.
    assert (Hq1 : no_closing_client (update_session sid session_connection_lost n))
      by (by apply no_closing_client_update).
    simpl. destruct (task n); try done; case_decide; try done.
    + by apply (no_closing_client_end_of_iteration (add_log _ _)).
    + by apply no_closing_client_end_of_iteration.
  - injection He as <-. unfold handle_request.
    destruct (subscription_controllers n !! method) as [[]|]; try done;
      by apply (no_closing_client_same n).
  - injection He as <-. destruct s; by apply (no_closing_client_same n).
  - injection He as <-. rewrite facade_rpc. unfold rpc.
    destruct (is_connected n); [|done]. destruct (client n); [|done].
    by apply no_closing_client_update.
Qed.

(** X14: in a running loop [on_connected] fires on a connected network: when
    the version reply comes while the running flag is set, [on_connected]
    receives [True], [is_connected] is true at that moment and the loop waits
    for the disconnect of the session in [self.client]. *)
Theorem on_connected_fires_connected (pool : list Server) (n : Network)
  (it : nat) (server : Server) (sid : nat) :
  reachable __version__ pool n → running n = true →
  task n = AwaitVersion it server sid →
  ∃ n1, step __version__ n VersionOk = Some n1 ∧
    published (_on_connected_controller n1) =
      published (_on_connected_controller n) ++ [true] ∧
    is_connected n1 = true ∧ active n1 sid ∧
    task n1 = AwaitDisconnect it server sid.
Proof.
  intros Hr Hrun Ht. destruct (reachable_wf __version__ pool n Hr) as [_ Hf].
  unfold frame_ok in Hf. rewrite Ht in Hf.
  destruct Hf as (Hcl & (s & Hh & _ & Hp) & _).
  assert (Hopen : phase s = Open).
  { destruct Hp as [Hp|Hp]; [done|].
    by destruct (reachable_no_closing_client pool n Hr Hrun sid s Hcl Hh). }
  simpl. rewrite Ht. unfold resume_version_ok. simpl. rewrite Hcl.
  eexists. split; [done|]. split; [done|].
  split; [unfold is_connected, is_closing; simpl; by rewrite Hcl, Hh, Hopen|].
  split; [|done]. split; [done|]. exists s. split; [done|].
  unfold is_closing. by rewrite Hopen.
Qed.

(** ** After [stop()] has returned *)







End Lifecycle.

(** ** The further properties on the sample data *)

Lemma on_connected_counts_version_replies_witness :
  published (_on_connected_controller net_reconnected) =
    replicate
      (version_replies
         [Start; ConnectOk; VersionOk; ConnectionLost 0; ConnectOk; VersionOk])
      true.
Proof.
  apply (on_connected_counts_version_replies version_0_5_7 pool_ab
           [Start; ConnectOk; VersionOk; ConnectionLost 0; ConnectOk; VersionOk]
           net_reconnected).
  vm_compute. reflexivity.
Defined.

Lemma sessions_bound_to_pool_witness : server_of session_connected ∈ pool_ab.
Proof.
  apply (sessions_bound_to_pool version_0_5_7 pool_ab net_connected 0
           session_connected net_connected_reachable).
  vm_compute. reflexivity.
Defined.

Lemma disconnect_fires_once_witness :
  published (_on_disconnect_controller session_connected) =
    if decide (phase session_connected = Lost) then [true] else [].
Proof.
  apply (disconnect_fires_once version_0_5_7 pool_ab net_connected 0
           session_connected net_connected_reachable).
  vm_compute. reflexivity.
Defined.

Lemma sessions_only_advance_witness :
  ∃ s', heap net_stopped !! 0 = Some s' ∧
    server_of s' = server_of session_connected ∧
    (phase_rank (phase session_connected) ≤ phase_rank (phase s'))%nat ∧
    requests session_connected `prefix_of` requests s' ∧
    published (_on_disconnect_controller session_connected) `prefix_of`
      published (_on_disconnect_controller s').
Proof.
  apply (sessions_only_advance version_0_5_7 pool_ab net_connected net_stopped
           [Stop; ConnectionLost 0] 0 session_connected net_connected_reachable).
  - vm_compute. reflexivity.
  - vm_compute. reflexivity.
Defined.

Lemma facade_calls_in_order_witness :
  run version_0_5_7 net_connected
    (Request <$> [CallSubscribeHeaders; CallGetHeaders (PyInt 0) None]) =
  Some (update_session 0
          (add_requests
             (wire_request <$> [CallSubscribeHeaders; CallGetHeaders (PyInt 0) None]))
          net_connected).
Proof.
  apply (proj1 (facade_calls_in_order version_0_5_7 net_connected
                  [CallSubscribeHeaders; CallGetHeaders (PyInt 0) None])
           0 session_connected).
  - vm_compute. reflexivity.
  - vm_compute. reflexivity.
  - vm_compute. reflexivity.
Defined.

Lemma pushes_keep_order_per_topic_witness :
  published
    (_on_header_controller
       (handle_requests net_connected
          [("blockchain.headers.subscribe", [PyStr "h1"]);
           ("blockchain.address.subscribe", [PyStr "a"; PyStr "s1"]);
           ("blockchain.headers.subscribe", [PyStr "h2"])]).1) =
    published (_on_header_controller net_connected) ++
      topic_args "blockchain.headers.subscribe"
        [("blockchain.headers.subscribe", [PyStr "h1"]);
         ("blockchain.address.subscribe", [PyStr "a"; PyStr "s1"]);
         ("blockchain.headers.subscribe", [PyStr "h2"])].
Proof.
  apply (proj1 (proj2
           (pushes_keep_order_per_topic version_0_5_7 pool_ab net_connected
              [("blockchain.headers.subscribe", [PyStr "h1"]);
               ("blockchain.address.subscribe", [PyStr "a"; PyStr "s1"]);
               ("blockchain.headers.subscribe", [PyStr "h2"])]
              net_connected_reachable
              ltac:(repeat constructor; (by left) || (by right))))).
Defined.

Lemma failures_are_logged_witness :
  ∃ n', step version_0_5_7 net_connecting ConnectFailed = Some n' ∧
    log n' = log net_connecting ++
               [LogException "Connecting to %s raised an exception:"
                  (connection_string ("a.example", 50001%Z))] ∧
    server_of <$> heap net_connecting !! 0 = Some ("a.example", 50001%Z).
Proof.
  apply (proj1 (failures_are_logged_disconnects_are_not version_0_5_7 pool_ab
                  net_connecting 1 ("a.example", 50001%Z) 0
                  net_connecting_reachable)).
  reflexivity.
Defined.

Lemma stopped_loop_makes_no_session_witness :
  running net_stopped = false ∧
  client net_stopped = client (stop net_connected).1 ∧
  length (heap net_stopped) = length (heap (stop net_connected).1).
Proof.
  apply (stopped_loop_makes_no_session version_0_5_7 (stop net_connected).1
           net_stopped [ConnectionLost 0]).
  - reflexivity.
  - intros H. apply list_elem_of_singleton in H. discriminate.
  - vm_compute. reflexivity.
Defined.

Lemma stop_then_start_witness :
  ∃ n3 n4 server,
    step version_0_5_7 (stop net_connected).1 (ConnectionLost 0) = Some n3 ∧
    loop_terminated n3 ∧
    step version_0_5_7 n3 Start = Some n4 ∧
    pool_ab !! 0 = Some server ∧ running n4 = true ∧
    task n4 = AwaitConnect 1 server (length (heap n3)) ∧
    client n4 = Some (length (heap n3)) ∧
    heap n4 = heap n3 ++ [new_session server] ∧
    is_connected n4 = false.
Proof.
  apply (stop_then_start_begins_at_first_server version_0_5_7 pool_ab
           net_connected 0 [] (stop net_connected).1 net_connected_reachable).
  - reflexivity.
  - apply not_elem_of_nil.
  - apply not_elem_of_nil.
  - reflexivity.
Defined.

Lemma facade_open_before_version_reply_witness :
  ∃ n1, step version_0_5_7 net_connecting ConnectOk = Some n1 ∧
    task n1 = AwaitVersion 1 ("a.example", 50001%Z) 0 ∧
    published (_on_connected_controller n1) =
      published (_on_connected_controller net_connecting) ∧
    is_connected n1 = true ∧
    ∀ c, facade n1 c = send_request n1 0 (wire_method c) (wire_args c).
Proof.
  apply (facade_open_before_version_reply version_0_5_7 pool_ab net_connecting
           1 ("a.example", 50001%Z) 0 net_connecting_reachable).
  reflexivity.
Defined.

Lemma first_answering_server_witness :
  ∃ n server s,
    run version_0_5_7 (init pool_ab)
      (Start :: attempts_events [ConnectError; VersionError; ConnectError] 0
         ++ [ConnectOk; VersionOk]) = Some n ∧
    cycle_next pool_ab 3 = Some server ∧
    client n = Some 3 ∧
    heap n !! 3 = Some s ∧
    server_of s = server ∧ phase s = Open ∧
    requests s = [handshake version_0_5_7] ∧
    is_connected n = true ∧
    published (_on_connected_controller n) = [true] ∧
    task n = AwaitDisconnect 4 server 3.
Proof.
  apply (first_answering_server_is_connected version_0_5_7 pool_ab
           [ConnectError; VersionError; ConnectError]).
  - discriminate.
  - repeat constructor; by right.
Defined.

Lemma loop_waits_on_live_session_witness :
  ∃ s, client net_connected = Some 0 ∧ heap net_connected !! 0 = Some s ∧
    (phase s = Open ∨ phase s = Closing) ∧
    published (_on_disconnect_controller s) = [] ∧
    is_Some (step version_0_5_7 net_connected (ConnectionLost 0)).
Proof.
  apply (loop_waits_on_live_session version_0_5_7 pool_ab net_connected
           1 ("a.example", 50001%Z) 0 net_connected_reachable).
  right. reflexivity.
Defined.

Lemma on_connected_fires_connected_witness :
  ∃ n1, step version_0_5_7 net_versioning VersionOk = Some n1 ∧
    published (_on_connected_controller n1) =
      published (_on_connected_controller net_versioning) ++ [true] ∧
    is_connected n1 = true ∧ active n1 0 ∧
    task n1 = AwaitDisconnect 1 ("a.example", 50001%Z) 0.
Proof.
  apply (on_connected_fires_connected version_0_5_7 pool_ab net_versioning
           1 ("a.example", 50001%Z) 0 net_versioning_reachable).
  - reflexivity.
  - reflexivity.
Defined.


